(** * pdf2packet: splitting a scanned PDF at barcode separator pages

    A shallow embedding of [src/pdf2packet/pdf2packet.py] and the
    properties of its page classifier and split loop.

    Conventions of the embedding:
    - Python [str] and [bytes] are both [string] (sequences of 8-bit
      characters); [bytes.decode('ascii')] is the partial identity on
      strings whose characters are all below 128.
    - A Python dict that the code indexes with a fixed key is a record with
      one [option] field per key: [None] is an absent key, and indexing it
      raises [KeyError].  The [/XObject] dictionary, which the code iterates,
      is an association list in iteration order.
    - A page handle is the 0-based index of the page in the source document;
      a [PdfFileWriter] is the list of the handles added to it.  The loop
      fetches each page once, so a handle stands for one page object.
    - Exceptions are values of [exn]; code that only raises lives in
      [result], code that also writes output files lives in [M], a state
      monad over the log of documents written, so that documents written
      before an exception stay written.
    - [PdfFileWriter.write] rewrites the references of the pages it writes
      into the writer; a later writer that holds such a page raises
      [AttributeError].  The pages already written are the component
      [written] of the loop state.  Distinct pages are taken to share no
      object.
    - The answer of the file system to [open(output, 'wb')] is a
      collaborator, [open_output], a function of the name.  A write that
      raises after the file is opened leaves a file that is no document;
      the log holds the documents written in full.
    - The source document is not changed during a run, so a reader opened
      again (line 136) gives the same pages.
    - [print] calls are not modelled. *)

From Stdlib Require Import String Ascii List ZArith Bool Arith Lia.
Import ListNotations.

Local Open Scope string_scope.
Local Open Scope list_scope.

(** ** Python string primitives *)

Module PyStr.

(** Truth value of a string: [bool(s)]. *)
Definition truthy (s : string) : bool :=
  match s with
  | EmptyString => false
  | String _ _ => true
  end.

(** [s.startswith(p)]. *)
Fixpoint startswith (p s : string) : bool :=
  match p, s with
  | EmptyString, _ => true
  | String _ _, EmptyString => false
  | String a p', String b s' => Ascii.eqb a b && startswith p' s'
  end.

(** [s[n:]]. *)
Fixpoint drop (n : nat) (s : string) : string :=
  match n, s with
  | O, _ => s
  | S _, EmptyString => EmptyString
  | S n', String _ s' => drop n' s'
  end.

(** [sub in s]: [sub] occurs in [s] as a substring. *)
Fixpoint contains (sub s : string) : bool :=
  if startswith sub s then true
  else match s with
       | EmptyString => false
       | String _ s' => contains sub s'
       end.

(** [s.partition(sep)] for a non-empty [sep] (Python raises [ValueError]
    on an empty separator; the program only passes literals). *)
Fixpoint partition (sep s : string) : string * string * string :=
  if startswith sep s then (EmptyString, sep, drop (String.length sep) s)
  else match s with
       | EmptyString => (EmptyString, EmptyString, EmptyString)
       | String c s' =>
           let '(a, m, b) := partition sep s' in (String c a, m, b)
       end.

(** [b.decode('ascii')] succeeds iff every byte is below 128. *)
Fixpoint is_ascii (s : string) : bool :=
  match s with
  | EmptyString => true
  | String c s' => Nat.ltb (nat_of_ascii c) 128 && is_ascii s'
  end.

(** [a ++ sep ++ b] splits [s] at the first occurrence of [sep]. *)
Definition first_occurrence (sep s a b : string) : Prop :=
  s = (a ++ sep ++ b)%string /\
  forall a' b', s = (a' ++ sep ++ b')%string ->
                String.length a <= String.length a'.

End PyStr.

(** ** Exceptions and the two monads *)

Inductive exn : Type :=
| KeyError (key : string)
| IndexError
| UnicodeDecodeError
| UnidentifiedImageError
| NotImplementedError
| AttributeError
| OSError
| SystemExit (msg : string).

Inductive result (A : Type) : Type :=
| Ok (a : A)
| Raise (e : exn).
Arguments Ok {A} a.
Arguments Raise {A} e.

Definition rbind {A B} (c : result A) (k : A -> result B) : result B :=
  match c with
  | Ok a => k a
  | Raise e => Raise e
  end.

(** An output file: its name and the page handles written into it. *)
Definition OutputFile : Type := string * list nat.

(** The documents written so far, oldest first ([open(output, 'wb')]
    followed by a [pdf_writer.write] that returns). *)
Definition FileLog : Type := list OutputFile.

Definition M (A : Type) : Type := FileLog -> result A * FileLog.

Definition ret {A} (a : A) : M A := fun fs => (Ok a, fs).

Definition bind {A B} (c : M A) (k : A -> M B) : M B :=
  fun fs =>
    match c fs with
    | (Ok a, fs') => k a fs'
    | (Raise e, fs') => (Raise e, fs')
    end.

Definition lift {A} (r : result A) : M A := fun fs => (r, fs).

Definition raise {A} (e : exn) : M A := lift (Raise e).

Declare Scope result_scope.
Delimit Scope result_scope with result.
Notation "x <- c ;; k" := (rbind c (fun x => k))
  (at level 61, c at next level, right associativity) : result_scope.
Notation "' pat <- c ;; k" := (rbind c (fun x => match x with pat => k end))
  (at level 61, pat pattern, c at next level, right associativity) : result_scope.

Declare Scope io_scope.
Delimit Scope io_scope with io.
Notation "x <- c ;; k" := (bind c (fun x => k))
  (at level 61, c at next level, right associativity) : io_scope.
Notation "c ;; k" := (bind c (fun _ => k))
  (at level 61, right associativity) : io_scope.

(** ** Data model *)

(** The value of a stream's [/Filter] entry: a name or an array of names. *)
Inductive PdfFilter : Type :=
| FilterName (n : string)
| FilterArray (ns : list string).

(** An entry of a page's [/XObject] dictionary: its [/Subtype] and
    [/Filter] entries, and what [getData()] does on it (the decoded stream,
    or the exception of a filter that PyPDF4 cannot decode). *)
Record PdfXObject : Type := mkXObject {
  Subtype : option string;
  Filter : option PdfFilter;
  getData : result string
}.

(** The [/Resources] dictionary of a page: its [/XObject] entry, keys in
    order. *)
Record PdfResources : Type := mkResources {
  XObject : option (list (string * PdfXObject))
}.

(** A page: its [/Resources] entry. *)
Record PdfPage : Type := mkPage {
  Resources : option PdfResources
}.

(** A result dict of the barcode reader; only the key ['parsed'] is read. *)
Record ZxResult : Type := mkZx {
  parsed : option string
}.

(** The parsed command line. *)
Record Args : Type := mkArgs {
  filename : string;
  prefix : string;
  separator : string;
  keep_page : bool;
  keep_page_next : bool;
  brightness : Z;
  verbose : bool;
  debug : bool
}.

(** The fields of a [PdfQrSplit] object. *)
Record PdfQrSplit : Type := mkSplit {
  self_filepath : string;
  self_verbose : bool;
  self_debug : bool;
  self_brightness : Z;
  input_pdf : list PdfPage;
  total_pages : nat
}.

(** ** [extract_barcodes] *)

Definition decode_ascii (b : string) : result string :=
  if PyStr.is_ascii b then Ok b else Raise UnicodeDecodeError.

(** One iteration of [for r in results], on the pair [(sep, race)]. *)
Definition extract_step (acc : string * string) (r : ZxResult)
  : result (string * string) :=
  let '(sep, race) := acc in
  match parsed r with
  | Some bytes =>
      (barcode <- decode_ascii bytes ;;
       let sep :=
         if PyStr.contains "RPSEQ:" barcode
         then snd (PyStr.partition ":" barcode) else sep in
       let race :=
         if PyStr.contains "RC:" barcode
         then snd (PyStr.partition ": " barcode) else race in
       Ok (sep, race))%result
  | None => Ok (sep, race)
  end.

Fixpoint extract_loop (results : list ZxResult) (acc : string * string)
  : result (string * string) :=
  match results with
  | [] => Ok acc
  | r :: rs => (acc' <- extract_step acc r ;; extract_loop rs acc')%result
  end.

Definition extract_barcodes (results : list ZxResult)
  : result (string * string) :=
  extract_loop results ("", "").

(** ** The page classifier and the split loop *)

(** [needle in flt] for the value of a [/Filter] entry: substring test on a
    name (a [str]), membership test on an array (a [list]). *)
Definition filter_has (needle : string) (flt : PdfFilter) : bool :=
  match flt with
  | FilterName n => PyStr.contains needle n
  | FilterArray ns => existsb (String.eqb needle) ns
  end.

(** The condition of lines 93-95. *)
Definition supported_filter (flt : PdfFilter) : bool :=
  filter_has "/FlateDecode" flt || filter_has "/DCTDecode" flt
  || filter_has "/JPXDecode" flt.

(** [fn = lambda x: 255 if x > self.brightness else 0]. *)
Definition fn (self : PdfQrSplit) (x : Z) : Z :=
  if (x >? self_brightness self)%Z then 255%Z else 0%Z.

(** [label + "-" + race + ".pdf"] or [label + ".pdf"] (lines 120-123 and
    145-148). *)
Definition output_name (last_label last_race : string) : string :=
  if PyStr.truthy last_race
  then (last_label ++ "-" ++ last_race ++ ".pdf")%string
  else (last_label ++ ".pdf")%string.

(** The local variables of [split_qr] that live across iterations of the
    [while] loop, and [written], the pages that a writer of this run has
    written.  [new_sep] and [new_race] are only read on a page that has
    just assigned them, so they are carried by the result of the scan of
    that page instead. *)
Record SplitState : Type := mkState {
  pdfs_count : nat;
  current_page : nat;
  pdf_writer : list nat;
  last_label : string;
  last_race : string;
  written : list nat
}.

(** Some page of [doc] has been written by an earlier writer. *)
Definition already_written (written doc : list nat) : bool :=
  existsb (fun p => existsb (Nat.eqb p) written) doc.

Section Collaborators.

(** What the libraries and the file system do, as far as the program can
    tell: [Image.open(io.BytesIO(data)).convert('L')] gives the 8-bit grey
    values of the image or raises; [reader.decode] gives the result dicts
    for the binarized image saved at [tgtn]; [TemporaryDirectory()] gives
    a directory name; [open(output, 'wb')] opens the file or raises. *)
Variable image_open_L : string -> result (list Z).
Variable reader_decode : list Z -> list ZxResult.
Variable temp_dir : string.
Variable open_output : string -> result unit.

(** [with open(output, 'wb') as output_pdf: pdf_writer.write(output_pdf)]
    (lines 130-131 and 152-153). *)
Definition write_document (written : list nat) (output : string)
    (pdf_writer : list nat) : M unit :=
  fun fs =>
    match open_output output with
    | Raise e => (Raise e, fs)
    | Ok _ =>
        if already_written written pdf_writer
        then (Raise AttributeError, fs)
        else (Ok tt, fs ++ [(output, pdf_writer)])
    end.

(** Lines 126-132 and 149-154: write the document if it has pages.  The
    result is the new count and the pages written so far. *)
Definition flush (output : string) (pdf_writer : list nat) (pdfs_count : nat)
    (written : list nat) : M (nat * list nat) :=
  if (0 <? List.length pdf_writer)%nat
  then (write_document written output pdf_writer ;;
        ret ((pdfs_count + 1)%nat, written ++ pdf_writer))%io
  else ret (pdfs_count, written).

(** The body of [for obj in xObject] (lines 89-115) on the scan state:
    [None] while [split] is [False], [Some (new_sep, new_race)] once it is
    [True]. *)
Definition scan_xobject (self : PdfQrSplit)
    (found : option (string * string)) (entry : string * PdfXObject)
  : result (option (string * string)) :=
  let '(obj, x) := entry in
  match Subtype x with
  | None => Raise (KeyError "/Subtype")
  | Some subtype =>
      if (subtype =? "/Image")%string then
        (data <- getData x ;;
         match Filter x with
         | None => Raise (KeyError "/Filter")
         | Some flt =>
             (tgtn <-
                (if supported_filter flt
                 then (img <- image_open_L data ;;
                       Ok (Some ((temp_dir ++ "/" ++ PyStr.drop 1 obj ++ ".png")%string,
                                 map (fn self) img)))
                 else Ok None) ;;
              match tgtn with
              | Some (path, saved) =>
                  if PyStr.truthy path then
                    (' (sep, race) <- extract_barcodes (reader_decode saved) ;;
                     if PyStr.truthy sep then Ok (Some (sep, race))
                     else Ok found)
                  else Ok found
              | None => Ok found
              end)
         end)%result
      else Ok found
  end.

Fixpoint scan_xobjects (self : PdfQrSplit)
    (entries : list (string * PdfXObject)) (found : option (string * string))
  : result (option (string * string)) :=
  match entries with
  | [] => Ok found
  | e :: es =>
      (found' <- scan_xobject self found e ;;
       scan_xobjects self es found')%result
  end.

(** Lines 79-115: fetch the page's [/XObject] dictionary and scan it. *)
Definition scan_page (self : PdfQrSplit) (page : PdfPage)
  : result (option (string * string)) :=
  match Resources page with
  | None => Raise (KeyError "/Resources")
  | Some resources =>
      match XObject resources with
      | None => Raise (KeyError "/XObject")
      | Some entries => scan_xobjects self entries None
      end
  end.

(** Lines 116-141, for the page with handle [current_page st]. *)
Definition place_page (args : Args) (st : SplitState)
    (found : option (string * string)) : M SplitState :=
  let page := current_page st in
  match found with
  | Some (new_sep, new_race) =>
      let pdf_writer :=
        if keep_page args then pdf_writer st ++ [page] else pdf_writer st in
      let output := output_name (last_label st) (last_race st) in
      (flushed <- flush output pdf_writer (pdfs_count st) (written st) ;;
       ret {| pdfs_count := fst flushed;
              current_page := page;
              pdf_writer := if keep_page_next args then [page] else [];
              last_label := new_sep;
              last_race := new_race;
              written := snd flushed |})%io
  | None =>
      ret {| pdfs_count := pdfs_count st;
             current_page := page;
             pdf_writer := pdf_writer st ++ [page];
             last_label := last_label st;
             last_race := last_race st;
             written := written st |}
  end.

(** One iteration of the [while] loop (lines 76-143). *)
Definition page_step (args : Args) (self : PdfQrSplit) (st : SplitState)
  : M SplitState :=
  match nth_error (input_pdf self) (current_page st) with
  | None => raise IndexError
  | Some page =>
      (found <- lift (scan_page self page) ;;
       st' <- place_page args st found ;;
       ret {| pdfs_count := pdfs_count st';
              current_page := current_page st' + 1;
              pdf_writer := pdf_writer st';
              last_label := last_label st';
              last_race := last_race st';
              written := written st' |})%io
  end.

(** [while current_page != self.total_pages]: [remaining] is the number
    of iterations left, [total_pages - current_page]. *)
Fixpoint pages_loop (args : Args) (self : PdfQrSplit) (remaining : nat)
    (st : SplitState) : M SplitState :=
  match remaining with
  | O => ret st
  | S k => (st' <- page_step args self st ;; pages_loop args self k st')%io
  end.

Definition split_qr (args : Args) (self : PdfQrSplit)
    (split_text : string) (ifiles : nat) : M nat :=
  let st0 := {| pdfs_count := 0;
                current_page := 0;
                pdf_writer := [];
                last_label := "999 Unknown";
                last_race := "";
                written := [] |} in
  (st <- pages_loop args self (total_pages self - current_page st0) st0 ;;
   flushed <- flush (output_name (last_label st) (last_race st))
                    (pdf_writer st) (pdfs_count st) (written st) ;;
   ret (fst flushed))%io.

(** [PdfQrSplit.__init__]: [pages] is the content of the file at
    [filepath]. *)
Definition PdfQrSplit_init (filepath : string) (pages : list PdfPage)
    (verbose debug : bool) (brightness : Z) : PdfQrSplit :=
  {| self_filepath := filepath;
     self_verbose := verbose;
     self_debug := debug;
     self_brightness := brightness;
     input_pdf := pages;
     total_pages := List.length pages |}.

(** Lines 161-167: what the module does to [args] after parsing. *)
Definition adjust_args (args : Args) : Args :=
  let verbose := if debug args then true else verbose args in
  let b := brightness args in
  let b := if (b <? 0)%Z then 0%Z else b in
  let b := if (b >? 255)%Z then 255%Z else b in
  {| filename := filename args;
     prefix := prefix args;
     separator := separator args;
     keep_page := keep_page args;
     keep_page_next := keep_page_next args;
     brightness := b;
     verbose := verbose;
     debug := debug args |}.

(** The loop of lines 176-179 over the matched files, each given with its
    pages; the state is [(ifiles, ofiles)]. *)
Fixpoint files_loop (args : Args) (filepaths : list (string * list PdfPage))
    (ifiles ofiles : nat) : M (nat * nat) :=
  match filepaths with
  | [] => ret (ifiles, ofiles)
  | (filepath, pages) :: rest =>
      let splitter :=
        PdfQrSplit_init filepath pages (verbose args) (debug args)
                        (brightness args) in
      (n <- split_qr args splitter (separator args) ifiles ;;
       files_loop args rest (ifiles + 1) (ofiles + n))%io
  end.

(** The module body (lines 159-185) on the parsed arguments and the files
    that [glob.glob(args.filename)] matches; returns the two numbers of
    the final message. *)
Definition main (args : Args) (filepaths : list (string * list PdfPage))
  : M (nat * nat) :=
  let args := adjust_args args in
  match filepaths with
  | [] => raise (SystemExit
                   "Error: no file found, check the documentation for more info.")
  | _ => files_loop args filepaths 0 0
  end.

End Collaborators.

(** ** Collaborators used in the examples

    Grey values are the bytes of the stream; the reader recognises a
    barcode by the number of pixels of the saved image; the file system
    opens every name without a slash. *)

Fixpoint bytes_of (s : string) : list Z :=
  match s with
  | EmptyString => []
  | String c s' => Z.of_nat (nat_of_ascii c) :: bytes_of s'
  end.

Definition demo_open (data : string) : result (list Z) := Ok (bytes_of data).

Definition demo_decode (saved : list Z) : list ZxResult :=
  match List.length saved with
  | 1 => [mkZx (Some "RPSEQ:EVENT1")]
  | 2 => [mkZx (Some "RC: 100")]
  | 3 => [mkZx (Some "RPSEQ:EVENT1"); mkZx (Some "RC: 100")]
  | 4 => [mkZx (Some "RPSEQ:A")]
  | 5 => [mkZx (Some "RPSEQ:B")]
  | 6 => [mkZx (Some "SEP:DOC1")]
  | _ => [mkZx None]
  end.

Definition demo_tmp : string := "/tmp/tmpq".

Definition demo_fs (name : string) : result unit :=
  if PyStr.contains "/" name then Raise OSError else Ok tt.

(** An image XObject with a filter name and decoded stream data. *)
Definition image_of (flt : string) (data : string) : PdfXObject :=
  mkXObject (Some "/Image"%string) (Some (FilterName flt)) (Ok data).

(** A page with the given [/XObject] dictionary. *)
Definition page_of (entries : list (string * PdfXObject)) : PdfPage :=
  mkPage (Some (mkResources (Some entries))).

(** A page that is one scanned image of [n] pixels, DCT encoded. *)
Definition scan_of (n : nat) : PdfPage :=
  page_of [("/Im0"%string,
            image_of "/DCTDecode" (string_of_list_ascii (repeat "x"%char n)))].

Definition demo_args : Args :=
  {| filename := "in.pdf"; prefix := "split"; separator := "RPSEQ:";
     keep_page := false; keep_page_next := false; brightness := 128;
     verbose := false; debug := false |}.

Definition demo_self (pages : list PdfPage) : PdfQrSplit :=
  PdfQrSplit_init "in.pdf" pages false false 128.


(** A page of text: its resources have no [/XObject] entry. *)
Definition text_page : PdfPage := mkPage (Some (mkResources None)).

Definition set_brightness (b : Z) (args : Args) : Args :=
  {| filename := filename args; prefix := prefix args;
     separator := separator args; keep_page := keep_page args;
     keep_page_next := keep_page_next args; brightness := b;
     verbose := verbose args; debug := debug args |}.

Definition set_prefix (p : string) (args : Args) : Args :=
  {| filename := filename args; prefix := p;
     separator := separator args; keep_page := keep_page args;
     keep_page_next := keep_page_next args; brightness := brightness args;
     verbose := verbose args; debug := debug args |}.

Definition set_separator (s : string) (args : Args) : Args :=
  {| filename := filename args; prefix := prefix args;
     separator := s; keep_page := keep_page args;
     keep_page_next := keep_page_next args; brightness := brightness args;
     verbose := verbose args; debug := debug args |}.

Definition set_keep (k kn : bool) (args : Args) : Args :=
  {| filename := filename args; prefix := prefix args;
     separator := separator args; keep_page := k;
     keep_page_next := kn; brightness := brightness args;
     verbose := verbose args; debug := debug args |}.

(** ** The loop on the outcomes of the scans

    When every page scans without an exception and every write returns,
    the loop is a function of the list of scan outcomes.  [step_files] and
    [step_state] are what one iteration writes and leaves; [engine] is
    everything [split_qr] writes from a state on, the final flush
    included. *)

Abbreviation Outcome := (option (string * string)).

Definition flush_files (output : string) (pdf_writer : list nat) : FileLog :=
  if (0 <? List.length pdf_writer)%nat then [(output, pdf_writer)] else [].

Definition closing_writer (args : Args) (st : SplitState) : list nat :=
  if keep_page args then pdf_writer st ++ [current_page st] else pdf_writer st.

Definition step_files (args : Args) (st : SplitState) (c : Outcome) : FileLog :=
  match c with
  | Some _ =>
      flush_files (output_name (last_label st) (last_race st))
                  (closing_writer args st)
  | None => []
  end.

Definition step_state (args : Args) (st : SplitState) (c : Outcome)
  : SplitState :=
  match c with
  | Some (new_sep, new_race) =>
      {| pdfs_count := pdfs_count st + List.length (step_files args st c);
         current_page := current_page st + 1;
         pdf_writer := if keep_page_next args then [current_page st] else [];
         last_label := new_sep;
         last_race := new_race;
         written := written st ++ closing_writer args st |}
  | None =>
      {| pdfs_count := pdfs_count st;
         current_page := current_page st + 1;
         pdf_writer := pdf_writer st ++ [current_page st];
         last_label := last_label st;
         last_race := last_race st;
         written := written st |}
  end.

Fixpoint engine (args : Args) (cs : list Outcome) (st : SplitState) : FileLog :=
  match cs with
  | [] => flush_files (output_name (last_label st) (last_race st)) (pdf_writer st)
  | c :: cs' => step_files args st c ++ engine args cs' (step_state args st c)
  end.

Definition initial_state : SplitState :=
  {| pdfs_count := 0; current_page := 0; pdf_writer := [];
     last_label := "999 Unknown"; last_race := ""; written := [] |}.

(** ** The split as the specification describes it

    Documents: the pages are cut at the separator pages; a separator page
    goes to the document it closes under [keep_page] and to the document it
    opens under [keep_page_next].  Names: the first document carries the
    sentinel, the document after the k-th separator carries what that
    separator decoded to.  Files: the non-empty documents, in order. *)

Definition sentinel : string * string := ("999 Unknown", "").

Fixpoint separators (cs : list Outcome) : list (string * string) :=
  match cs with
  | [] => []
  | Some p :: cs' => p :: separators cs'
  | None :: cs' => separators cs'
  end.

Definition name_of (p : string * string) : string :=
  output_name (fst p) (snd p).

Definition spec_names (cs : list Outcome) : list string :=
  map name_of (sentinel :: separators cs).

Fixpoint spec_docs (args : Args) (i : nat) (cur : list nat) (cs : list Outcome)
  : list (list nat) :=
  match cs with
  | [] => [cur]
  | None :: cs' => spec_docs args (S i) (cur ++ [i]) cs'
  | Some _ :: cs' =>
      (if keep_page args then cur ++ [i] else cur)
        :: spec_docs args (S i) (if keep_page_next args then [i] else []) cs'
  end.

Definition has_pages (f : OutputFile) : bool :=
  match snd f with
  | [] => false
  | _ :: _ => true
  end.

Definition spec_files (args : Args) (cs : list Outcome) : FileLog :=
  filter has_pages (combine (spec_names cs) (spec_docs args 0 [] cs)).

(** ** Vocabulary of the statements *)

(** The entries of the page's [/XObject] dictionary, when the page has
    one. *)
Definition xobjects_of (page : PdfPage) : option (list (string * PdfXObject)) :=
  match Resources page with
  | Some resources => XObject resources
  | None => None
  end.

(** The images of a page, as the loop of lines 88-90 finds them. *)
Definition is_image (x : PdfXObject) : bool :=
  match Subtype x with
  | Some subtype => (subtype =? "/Image")%string
  | None => false
  end.

Definition embedded_images (page : PdfPage) : list PdfXObject :=
  match xobjects_of page with
  | None => []
  | Some entries => filter is_image (map snd entries)
  end.

(** An image whose [/Filter] is present and outside the supported set. *)
Definition unsupported_image (x : PdfXObject) : bool :=
  match Filter x with
  | Some flt => negb (supported_filter flt)
  | None => false
  end.

(** An XObject whose [/Subtype] is present. *)
Definition has_subtype (x : PdfXObject) : bool :=
  match Subtype x with
  | Some _ => true
  | None => false
  end.

(** An XObject on which [getData()] returns. *)
Definition decodable (x : PdfXObject) : bool :=
  match getData x with
  | Ok _ => true
  | Raise _ => false
  end.

(** Every page of [pages] scans without an exception, with the outcomes
    [cs]. *)
Definition scans (image_open_L : string -> result (list Z))
    (reader_decode : list Z -> list ZxResult) (temp_dir : string)
    (self : PdfQrSplit) (pages : list PdfPage) (cs : list Outcome) : Prop :=
  Forall2 (fun p c => scan_page image_open_L reader_decode temp_dir self p = Ok c)
          pages cs.

(** No page has a separator barcode: no page scans to a separator. *)
Definition no_separator (image_open_L : string -> result (list Z))
    (reader_decode : list Z -> list ZxResult) (temp_dir : string)
    (self : PdfQrSplit) (pages : list PdfPage) : Prop :=
  Forall (fun p => forall label race,
              scan_page image_open_L reader_decode temp_dir self p
              <> Ok (Some (label, race)))
         pages.

(** Every file of [fs] can be opened for writing. *)
Definition can_open (open_output : string -> result unit) (fs : FileLog) : Prop :=
  Forall (fun f => open_output (fst f) = Ok tt) fs.

(** No page goes to two writers: the two flags are not both set, or no
    page is a separator. *)
Definition single_writer (args : Args) (cs : list Outcome) : Prop :=
  keep_page args && keep_page_next args = true -> separators cs = [].

(** The pages written so far are behind the loop, and the document in
    progress holds none of them. *)
Definition tidy (st : SplitState) : Prop :=
  (forall p, In p (written st) -> p < current_page st) /\
  (forall p, In p (pdf_writer st) ->
             p < current_page st /\ ~ In p (written st)).

(** The pages of all documents of a log. *)
Definition pages_of (fs : FileLog) : list nat := concat (map snd fs).

(** ** Further vocabulary for the properties of the loop *)

(** The payloads of the result dicts that have the key ['parsed']. *)
Fixpoint payloads (results : list ZxResult) : list string :=
  match results with
  | [] => []
  | r :: rs =>
      match parsed r with
      | Some b => b :: payloads rs
      | None => payloads rs
      end
  end.

Definition has_parsed (r : ZxResult) : bool :=
  match parsed r with
  | Some _ => true
  | None => false
  end.


(** The files closed while the pages with outcomes [cs] are processed, and
    the state the loop is left in; the final flush is not included. *)
Fixpoint closed_files (args : Args) (cs : list Outcome) (st : SplitState)
  : FileLog :=
  match cs with
  | [] => []
  | c :: cs' => step_files args st c ++ closed_files args cs' (step_state args st c)
  end.

Fixpoint state_after (args : Args) (cs : list Outcome) (st : SplitState)
  : SplitState :=
  match cs with
  | [] => st
  | c :: cs' => state_after args cs' (step_state args st c)
  end.

(** A grey value of an 8-bit image. *)
Definition is_grey (x : Z) : Prop := (0 <= x <= 255)%Z.

(** * Properties *)

(** ** Strings *)

Module PyStrFacts.
Import PyStr.

Lemma startswith_app (p s : string) :
  startswith p (p ++ s)%string = true.
Proof.
  induction p as [|a p IH]; simpl; [reflexivity|].
  now rewrite Ascii.eqb_refl, IH.
Qed.

Lemma startswith_split (p s : string) :
  startswith p s = true -> s = (p ++ drop (String.length p) s)%string.
Proof.
  revert s; induction p as [|a p IH]; intros s H; simpl in *.
  - reflexivity.
  - destruct s as [|b s]; [discriminate|].
    apply andb_true_iff in H as [Hab Hp].
    apply Ascii.eqb_eq in Hab; subst b.
    simpl. f_equal. now apply IH.
Qed.

Lemma string_app_assoc (a b c : string) :
  ((a ++ b) ++ c = a ++ (b ++ c))%string.
Proof. induction a; simpl; congruence. Qed.

Lemma contains_app (sub a b : string) :
  contains sub (a ++ sub ++ b)%string = true.
Proof.
  induction a as [|c a IH]; simpl.
  - destruct sub; simpl; [now destruct b|].
    rewrite Ascii.eqb_refl, startswith_app. reflexivity.
  - destruct (startswith sub (String c (a ++ sub ++ b))); [reflexivity|].
    exact IH.
Qed.

Lemma contains_split (sub s : string) :
  contains sub s = true -> exists a b, s = (a ++ sub ++ b)%string.
Proof.
  induction s as [|c s IH]; simpl; intros H.
  - destruct (startswith sub "") eqn:E; [|discriminate].
    exists ""%string, (drop (String.length sub) ""). simpl.
    now apply startswith_split.
  - destruct (startswith sub (String c s)) eqn:E.
    + exists ""%string, (drop (String.length sub) (String c s)).
      now apply startswith_split.
    + destruct (IH H) as (a & b & ->).
      now exists (String c a), b.
Qed.

(** [partition] cuts at the first occurrence of a non-empty separator. *)
Lemma partition_found (sep s : string) :
  sep <> ""%string -> contains sep s = true ->
  exists a b, first_occurrence sep s a b /\ partition sep s = (a, sep, b).
Proof.
  intros Hsep. induction s as [|c s IH]; simpl; intros H.
  - destruct (startswith sep "") eqn:E; [|discriminate].
    destruct sep; [congruence | discriminate].
  - destruct (startswith sep (String c s)) eqn:E.
    + exists ""%string, (drop (String.length sep) (String c s)).
      split; [split|reflexivity].
      * now apply startswith_split.
      * intros; simpl; lia.
    + destruct (IH H) as (a & b & [Hs Hmin] & Hp).
      exists (String c a), b. rewrite Hp. split; [split|reflexivity].
      * simpl. now rewrite <- Hs.
      * intros a' b' Heq. destruct a' as [|c' a']; simpl in Heq.
        -- rewrite Heq, startswith_app in E. discriminate.
        -- injection Heq as -> Heq. simpl.
           apply le_n_S. eapply Hmin; eassumption.
Qed.

Lemma partition_not_found (sep s : string) :
  contains sep s = false -> partition sep s = (s, ""%string, ""%string).
Proof.
  induction s as [|c s IH]; simpl; intros H.
  - destruct (startswith sep ""); [discriminate | reflexivity].
  - destruct (startswith sep (String c s)); [discriminate|].
    now rewrite (IH H).
Qed.

(** The cut is unique: a first occurrence determines both sides. *)
Lemma first_occurrence_unique (sep s a b a' b' : string) :
  first_occurrence sep s a b -> first_occurrence sep s a' b' ->
  a = a' /\ b = b'.
Proof.
  intros [H1 M1] [H2 M2].
  assert (L : String.length a = String.length a').
  { apply Nat.le_antisymm; [eapply M1 | eapply M2]; eassumption. }
  clear M1 M2. subst s. revert a' H2 L.
  induction a as [|c a IH]; intros [|c' a'] H L; simpl in *; try discriminate.
  - split; [reflexivity|].
    revert H. generalize b b'. clear.
    induction sep; simpl; intros; [assumption|].
    injection H as H. eauto.
  - injection H as -> H. injection L as L.
    destruct (IH _ H L) as [-> ->]. now split.
Qed.

Lemma partition_startswith (sep s : string) :
  startswith sep s = true ->
  partition sep s = (""%string, sep, drop (String.length sep) s).
Proof. intros H. destruct s; simpl; now rewrite H. Qed.

Lemma drop_app (p s : string) : drop (String.length p) (p ++ s) = s.
Proof. induction p; simpl; auto. Qed.

End PyStrFacts.

(** ** [extract_barcodes] on one payload *)

Section OnePayload.
Import PyStr PyStrFacts.

Lemma extract_one (payload : string) :
  is_ascii payload = true ->
  extract_barcodes [mkZx (Some payload)]
  = Ok (if contains "RPSEQ:" payload
        then snd (partition ":" payload) else ""%string,
        if contains "RC:" payload
        then snd (partition ": " payload) else ""%string).
Proof.
  intros H. unfold extract_barcodes, extract_loop, extract_step, decode_ascii.
  cbn [parsed rbind]. rewrite H. reflexivity.
Qed.

Lemma colon_of_marker (payload : string) :
  contains "RPSEQ:" payload = true -> contains ":" payload = true.
Proof.
  intros H. destruct (contains_split _ _ H) as (a & b & ->).
  replace (a ++ "RPSEQ:" ++ b)%string with ((a ++ "RPSEQ") ++ ":" ++ b)%string
    by (rewrite string_app_assoc; reflexivity).
  apply contains_app.
Qed.

End OnePayload.

(** C5 (as amended): for an ASCII payload containing "RPSEQ:" the label is
    what follows the first ":" of the payload, and for a payload containing
    "RC:" the secondary id is what follows the first ": " of the payload,
    or empty when the payload has no ": ".  Hence a payload "RPSEQ:" + x
    gives the label x and a payload "RC: " + y gives the secondary id y. *)
Theorem extract_barcodes_cuts_at_first_colon (payload : string) :
  PyStr.is_ascii payload = true ->
  exists label race,
    extract_barcodes [mkZx (Some payload)] = Ok (label, race) /\
    (PyStr.contains "RPSEQ:" payload = true ->
     exists a, PyStr.first_occurrence ":" payload a label) /\
    (PyStr.contains "RC:" payload = true ->
     (PyStr.contains ": " payload = false /\ race = ""%string) \/
     (exists a, PyStr.first_occurrence ": " payload a race)) /\
    (forall x, payload = ("RPSEQ:" ++ x)%string -> label = x) /\
    (forall y, payload = ("RC: " ++ y)%string -> race = y).
Proof.
  intros Hascii. rewrite (extract_one _ Hascii).
  eexists _, _. split; [reflexivity|]. repeat split.
  - intros H. rewrite H.
    destruct (PyStrFacts.partition_found ":" payload) as (a & b & Hf & Hp);
      [discriminate | now apply colon_of_marker |].
    rewrite Hp. now exists a.
  - intros H. rewrite H.
    destruct (PyStr.contains ": " payload) eqn:E.
    + right.
      destruct (PyStrFacts.partition_found ": " payload) as (a & b & Hf & Hp);
        [discriminate | assumption |].
      rewrite Hp. now exists a.
    + left. now rewrite (PyStrFacts.partition_not_found _ _ E).
  - intros x ->. reflexivity.
  - intros y ->. reflexivity.
Qed.

Lemma extract_barcodes_cuts_at_first_colon_witness :
  exists label race,
    extract_barcodes [mkZx (Some "RPSEQ:EVENT1")] = Ok (label, race) /\
    label = "EVENT1"%string.
Proof.
  destruct (extract_barcodes_cuts_at_first_colon "RPSEQ:EVENT1" eq_refl)
    as (label & race & He & _ & _ & Hl & _).
  exists label, race. split; [exact He | exact (Hl "EVENT1"%string eq_refl)].
Defined.

(** C5, counterexample: "RPSEQ:" first occurs in "A:RPSEQ:X" before "X",
    yet the label is "RPSEQ:X"; "RC: " first occurs in "X: RC: 7" before
    "7", yet the secondary id is "RC: 7". *)
Lemma label_is_not_cut_at_marker :
  PyStr.first_occurrence "RPSEQ:" "A:RPSEQ:X" "A:" "X" /\
  extract_barcodes [mkZx (Some "A:RPSEQ:X")] = Ok ("RPSEQ:X", "")%string /\
  "RPSEQ:X"%string <> "X"%string /\
  PyStr.first_occurrence "RC: " "X: RC: 7" "X: " "7" /\
  extract_barcodes [mkZx (Some "X: RC: 7")] = Ok ("", "RC: 7")%string /\
  "RC: 7"%string <> "7"%string.
Proof.
  repeat split; try reflexivity; try discriminate.
  - intros [|c [|c' a']] b' H; simpl in *; try discriminate; lia.
  - intros [|c [|c' [|c'' a']]] b' H; simpl in *; try discriminate; lia.
Qed.

(** ** The loop as a function of the scan outcomes *)

Lemma bind_assoc {A B C} (c : M A) (f : A -> M B) (g : B -> M C) fs :
  bind (bind c f) g fs = bind c (fun a => bind (f a) g) fs.
Proof. unfold bind. destruct (c fs) as [[a|e] fs']; reflexivity. Qed.

Lemma bind_ok {A B} (c : M A) (k : A -> M B) fs a fs' :
  c fs = (Ok a, fs') -> bind c k fs = k a fs'.
Proof. intros H. unfold bind. now rewrite H. Qed.

Lemma bind_raise {A B} (c : M A) (k : A -> M B) fs e fs' :
  c fs = (Raise e, fs') -> bind c k fs = (Raise e, fs').
Proof. intros H. unfold bind. now rewrite H. Qed.

Lemma already_written_false written doc :
  already_written written doc = false <->
  forall p, In p doc -> ~ In p written.
Proof.
  unfold already_written. split.
  - intros H p Hp Hw.
    assert (E : existsb (fun p => existsb (Nat.eqb p) written) doc = true).
    { apply existsb_exists. exists p. split; [exact Hp|].
      apply existsb_exists. exists p. split; [exact Hw | apply Nat.eqb_refl]. }
    congruence.
  - intros H. destruct (existsb _ doc) eqn:E; [|reflexivity].
    apply existsb_exists in E as (p & Hp & E).
    apply existsb_exists in E as (q & Hq & E).
    apply Nat.eqb_eq in E. subst q. now destruct (H p Hp).
Qed.

Lemma flush_files_has_pages output w :
  Forall (fun f => has_pages f = true /\ f = (output, w)) (flush_files output w).
Proof.
  unfold flush_files. destruct w; cbn; constructor; auto.
Qed.

Lemma flush_files_nonempty output w :
  w <> [] -> flush_files output w = [(output, w)].
Proof. destruct w; [congruence | reflexivity]. Qed.

Lemma single_writer_cons args c cs :
  single_writer args (c :: cs) ->
  (c = None \/ keep_page args && keep_page_next args = false) /\
  single_writer args cs.
Proof.
  unfold single_writer. intros H.
  destruct (keep_page args && keep_page_next args) eqn:E.
  - specialize (H eq_refl). destruct c as [p|]; [discriminate|].
    split; [now left | intros _; exact H].
  - split; [now right | discriminate].
Qed.

Lemma single_writer_no_separator args n : single_writer args (repeat None n).
Proof. intros _. induction n; cbn; auto. Qed.

Lemma single_writer_flags args cs :
  keep_page args && keep_page_next args = false -> single_writer args cs.
Proof. intros H E. congruence. Qed.

Lemma tidy_initial : tidy initial_state.
Proof. split; cbn; intros p []. Qed.

Lemma tidy_closing args st :
  tidy st -> forall p, In p (closing_writer args st) -> ~ In p (written st).
Proof.
  intros [Hw Hd] p Hp. unfold closing_writer in Hp.
  destruct (keep_page args); [|now apply Hd].
  apply in_app_or in Hp as [Hp|[<-|[]]]; [now apply Hd|].
  intros Hin. apply Hw in Hin. lia.
Qed.

Lemma tidy_step args st c :
  tidy st ->
  c = None \/ keep_page args && keep_page_next args = false ->
  tidy (step_state args st c).
Proof.
  intros [Hw Hd] Hc. destruct c as [[new_sep new_race]|].
  - destruct Hc as [[=]|Hflags]. split; cbn.
    + unfold closing_writer. intros p Hp.
      apply in_app_or in Hp as [Hp|Hp]; [apply Hw in Hp; lia|].
      destruct (keep_page args).
      * apply in_app_or in Hp as [Hp|[<-|[]]]; [apply Hd in Hp|]; lia.
      * apply Hd in Hp. lia.
    + unfold closing_writer. intros p Hp.
      destruct (keep_page_next args); [|destruct Hp].
      destruct Hp as [<-|[]]. split; [lia|].
      destruct (keep_page args); [discriminate|].
      intros Hin. apply in_app_or in Hin as [Hin|Hin].
      * apply Hw in Hin. lia.
      * apply Hd in Hin. lia.
  - split; cbn.
    + intros p Hp. apply Hw in Hp. lia.
    + intros p Hp. apply in_app_or in Hp as [Hp|[<-|[]]].
      * apply Hd in Hp. split; [lia | tauto].
      * split; [lia|]. intros Hin. apply Hw in Hin. lia.
Qed.

Section LoopFacts.

Variable image_open_L : string -> result (list Z).
Variable reader_decode : list Z -> list ZxResult.
Variable temp_dir : string.
Variable open_output : string -> result unit.

Local Abbreviation scan_page := (scan_page image_open_L reader_decode temp_dir).
Local Abbreviation flush := (flush open_output).
Local Abbreviation place_page := (place_page open_output).
Local Abbreviation page_step :=
  (page_step image_open_L reader_decode temp_dir open_output).
Local Abbreviation pages_loop :=
  (pages_loop image_open_L reader_decode temp_dir open_output).
Local Abbreviation split_qr :=
  (split_qr image_open_L reader_decode temp_dir open_output).
Local Abbreviation scans := (scans image_open_L reader_decode temp_dir).
Local Abbreviation can_open := (can_open open_output).

Lemma flush_run output w n wr fs :
  can_open (flush_files output w) ->
  (forall p, In p w -> ~ In p wr) ->
  flush output w n wr fs
  = (Ok (n + List.length (flush_files output w), wr ++ w),
     fs ++ flush_files output w).
Proof.
  intros Ho Hd. unfold flush, flush_files in *.
  destruct (0 <? List.length w)%nat eqn:E.
  - inversion Ho as [|? ? Hopen _]; subst. cbn in Hopen.
    apply already_written_false in Hd.
    unfold bind, write_document, ret. rewrite Hopen, Hd. reflexivity.
  - destruct w; [|discriminate].
    unfold ret. cbn. now rewrite Nat.add_0_r, !app_nil_r.
Qed.

Lemma place_page_run args st c fs :
  tidy st ->
  can_open (step_files args st c) ->
  place_page args st c fs
  = (Ok {| pdfs_count := pdfs_count (step_state args st c);
           current_page := current_page st;
           pdf_writer := pdf_writer (step_state args st c);
           last_label := last_label (step_state args st c);
           last_race := last_race (step_state args st c);
           written := written (step_state args st c) |},
     fs ++ step_files args st c).
Proof.
  intros Ht Ho. destruct c as [[new_sep new_race]|]; cbn.
  - unfold bind.
    rewrite (flush_run _ (closing_writer args st) _ _ fs Ho
               (tidy_closing args st Ht)).
    reflexivity.
  - unfold ret. now rewrite app_nil_r.
Qed.

Lemma page_step_run args self st page c fs :
  nth_error (input_pdf self) (current_page st) = Some page ->
  scan_page self page = Ok c ->
  tidy st ->
  can_open (step_files args st c) ->
  page_step args self st fs
  = (Ok (step_state args st c), fs ++ step_files args st c).
Proof.
  intros Hn Hs Ht Ho. unfold page_step. rewrite Hn.
  unfold bind at 1. unfold lift. rewrite Hs.
  unfold bind. rewrite (place_page_run _ _ _ _ Ht Ho). cbn.
  destruct c as [[? ?]|]; reflexivity.
Qed.

Lemma loop_run args self rest :
  forall cs, Forall2 (fun p c => scan_page self p = Ok c) rest cs ->
  forall pre st fs,
    input_pdf self = pre ++ rest ->
    current_page st = List.length pre ->
    tidy st ->
    single_writer args cs ->
    can_open (engine args cs st) ->
    bind (pages_loop args self (List.length rest) st)
         (fun st' =>
            bind (flush (output_name (last_label st') (last_race st'))
                        (pdf_writer st') (pdfs_count st') (written st'))
                 (fun flushed => ret (fst flushed))) fs
    = (Ok (pdfs_count st + List.length (engine args cs st)),
       fs ++ engine args cs st).
Proof.
  induction 1 as [|page c rest cs Hs _ IH];
    intros pre st fs Hin Hcur Ht Hsw Ho.
  - cbn [List.length pages_loop engine] in *. unfold bind at 1. unfold ret at 1.
    unfold bind.
    rewrite (flush_run _ _ _ _ fs Ho); [reflexivity|].
    intros p Hp. now apply (proj2 Ht).
  - cbn [engine] in Ho. apply Forall_app in Ho as [Ho1 Ho2].
    apply single_writer_cons in Hsw as [Hc Hsw].
    cbn [List.length pages_loop]. rewrite bind_assoc. unfold bind at 1.
    rewrite (page_step_run args self st page c fs); auto.
    + rewrite (IH (pre ++ [page])); auto.
      * cbn [engine]. rewrite length_app, app_assoc. f_equal. f_equal.
        destruct c as [[? ?]|]; cbn; lia.
      * rewrite Hin, <- app_assoc. reflexivity.
      * rewrite length_app. destruct c as [[? ?]|]; cbn; lia.
      * now apply tidy_step.
    + rewrite Hin, Hcur, nth_error_app2, Nat.sub_diag; auto.
Qed.

(** On a document whose pages all scan, when no page goes to two writers
    and every file can be opened, [split_qr] returns the number of files
    [engine] writes and appends them to the log. *)
Lemma split_qr_run args filepath pages v d b split_text ifiles cs fs :
  scans (PdfQrSplit_init filepath pages v d b) pages cs ->
  single_writer args cs ->
  can_open (engine args cs initial_state) ->
  split_qr args (PdfQrSplit_init filepath pages v d b) split_text ifiles fs
  = (Ok (List.length (engine args cs initial_state)),
     fs ++ engine args cs initial_state).
Proof.
  intros Hs Hsw Ho. unfold split_qr.
  cbn [total_pages PdfQrSplit_init current_page].
  rewrite Nat.sub_0_r.
  apply (loop_run args _ pages cs Hs [] initial_state fs);
    auto using tidy_initial.
Qed.

End LoopFacts.

(** ** Facts about [engine] *)

Lemma engine_no_separator args n :
  forall st,
    engine args (repeat None n) st
    = flush_files (output_name (last_label st) (last_race st))
                  (pdf_writer st ++ seq (current_page st) n).
Proof.
  induction n as [|n IH]; intros st; cbn [repeat engine seq].
  - now rewrite app_nil_r.
  - rewrite IH. cbn. rewrite <- app_assoc, Nat.add_1_r. reflexivity.
Qed.

(** With a document in progress, the next file written is that document,
    possibly grown, under the pending name. *)
Lemma engine_head args cs :
  forall st,
    pdf_writer st <> [] ->
    exists extra rest,
      engine args cs st
      = (output_name (last_label st) (last_race st), pdf_writer st ++ extra)
          :: rest.
Proof.
  induction cs as [|[[new_sep new_race]|] cs IH]; intros st Hw.
  - exists [], []. cbn. rewrite app_nil_r. now apply flush_files_nonempty.
  - cbn [engine step_files]. unfold closing_writer.
    destruct (keep_page args).
    + exists [current_page st]. eexists.
      rewrite flush_files_nonempty; [reflexivity|].
      now destruct (pdf_writer st).
    + exists []. eexists. rewrite app_nil_r.
      rewrite flush_files_nonempty; [reflexivity | assumption].
  - cbn [engine step_files app].
    destruct (IH (step_state args st None)) as (extra & rest & E).
    + cbn. now destruct (pdf_writer st).
    + rewrite E. cbn. exists (current_page st :: extra), rest.
      now rewrite <- app_assoc.
Qed.


(** Without the two flags, a written page is a page of the document in
    progress or a later page that is not a separator. *)
Lemma engine_pages_plain args cs :
  keep_page args = false -> keep_page_next args = false ->
  forall st j,
    In j (pages_of (engine args cs st)) ->
    In j (pdf_writer st) \/
    exists m, j = current_page st + m /\ nth_error cs m = Some None.
Proof.
  intros Hk Hn. unfold pages_of.
  induction cs as [|[[new_sep new_race]|] cs IH]; intros st j Hj.
  - cbn in Hj. unfold flush_files in Hj.
    destruct (0 <? List.length (pdf_writer st))%nat; cbn in Hj.
    + rewrite app_nil_r in Hj. now left.
    + contradiction.
  - cbn [engine step_files] in Hj. unfold closing_writer in Hj.
    rewrite Hk, map_app, concat_app in Hj. apply in_app_or in Hj as [Hj|Hj].
    + unfold flush_files in Hj.
      destruct (0 <? List.length (pdf_writer st))%nat; cbn in Hj.
      * rewrite app_nil_r in Hj. now left.
      * contradiction.
    + apply IH in Hj. cbn in Hj. rewrite Hn in Hj.
      destruct Hj as [[]|(m & -> & Hm)].
      right. exists (S m). split; [lia | exact Hm].
  - cbn [engine step_files app] in Hj. apply IH in Hj. cbn in Hj.
    destruct Hj as [Hj|(m & -> & Hm)].
    + apply in_app_or in Hj as [Hj|[<-|[]]].
      * now left.
      * right. exists 0. split; [lia | reflexivity].
    + right. exists (S m). split; [lia | exact Hm].
Qed.

Lemma flush_files_filter output w :
  flush_files output w = filter has_pages [(output, w)].
Proof. destruct w; reflexivity. Qed.

(** [engine] writes the non-empty documents of the specification, each
    under the name one separator behind. *)
Lemma engine_spec args cs :
  forall st,
    engine args cs st
    = filter has_pages
        (combine (map name_of ((last_label st, last_race st) :: separators cs))
                 (spec_docs args (current_page st) (pdf_writer st) cs)).
Proof.
  induction cs as [|[[new_sep new_race]|] cs IH]; intros st.
  - cbn. destruct (pdf_writer st); reflexivity.
  - cbn [engine step_files separators spec_docs map combine].
    rewrite IH. cbn [step_state current_page pdf_writer last_label last_race].
    rewrite Nat.add_1_r, flush_files_filter. unfold closing_writer, name_of.
    cbn [fst snd filter app]. 
    destruct (has_pages _); reflexivity.
  - cbn [engine step_files separators spec_docs app].
    rewrite IH. cbn [step_state current_page pdf_writer last_label last_race].
    now rewrite Nat.add_1_r.
Qed.

Lemma engine_initial_spec args cs :
  engine args cs initial_state = spec_files args cs.
Proof. apply engine_spec. Qed.


(** ** What any run writes, exceptions included *)

Section WriteFacts.

Variable image_open_L : string -> result (list Z).
Variable reader_decode : list Z -> list ZxResult.
Variable temp_dir : string.
Variable open_output : string -> result unit.

Local Abbreviation scan_page := (scan_page image_open_L reader_decode temp_dir).
Local Abbreviation flush := (flush open_output).
Local Abbreviation place_page := (place_page open_output).
Local Abbreviation page_step :=
  (page_step image_open_L reader_decode temp_dir open_output).
Local Abbreviation pages_loop :=
  (pages_loop image_open_L reader_decode temp_dir open_output).
Local Abbreviation split_qr :=
  (split_qr image_open_L reader_decode temp_dir open_output).

Lemma flush_writes output w n wr fs r fs' :
  flush output w n wr fs = (r, fs') ->
  exists new,
    fs' = fs ++ new /\
    Forall (fun f => has_pages f = true /\ fst f = output) new /\
    forall flushed, r = Ok flushed -> fst flushed = n + List.length new.
Proof.
  unfold flush, bind, write_document, ret.
  destruct (0 <? List.length w)%nat eqn:E.
  - destruct (open_output output) as [[]|e].
    + destruct (already_written wr w); intros [= <- <-].
      * exists []. rewrite app_nil_r. repeat split; [constructor | discriminate].
      * exists [(output, w)]. repeat split.
        -- constructor; [|constructor]. split; [|reflexivity].
           destruct w; [discriminate | reflexivity].
        -- intros flushed [= <-]. cbn. lia.
    + intros [= <- <-]. exists []. rewrite app_nil_r.
      repeat split; [constructor | discriminate].
  - intros [= <- <-]. exists []. rewrite app_nil_r.
    repeat split; [constructor|]. intros flushed [= <-]. cbn. lia.
Qed.

Lemma page_step_writes args self st fs r fs' :
  page_step args self st fs = (r, fs') ->
  exists new,
    fs' = fs ++ new /\
    Forall (fun f => has_pages f = true /\
                     fst f = output_name (last_label st) (last_race st)) new /\
    forall st', r = Ok st' -> pdfs_count st' = pdfs_count st + List.length new.
Proof.
  unfold page_step.
  destruct (nth_error (input_pdf self) (current_page st)) as [page|].
  - unfold bind at 1. unfold lift.
    destruct (scan_page self page) as [[[new_sep new_race]|]|e].
    + unfold bind, place_page. unfold bind.
      destruct (flush _ _ _ _ fs) as [[flushed|e] fs1] eqn:E;
        destruct (flush_writes _ _ _ _ _ _ _ E) as (new & -> & F & C);
        intros [= <- <-]; exists new; repeat split; auto; try discriminate.
      intros st' [= <-]. cbn. now apply C.
    + unfold bind, place_page, ret. intros [= <- <-].
      exists []. rewrite app_nil_r. repeat split; [constructor|].
      intros st' [= <-]. cbn. lia.
    + intros [= <- <-]. exists []. rewrite app_nil_r.
      repeat split; [constructor | discriminate].
  - intros [= <- <-]. exists []. rewrite app_nil_r.
    repeat split; [constructor | discriminate].
Qed.

Lemma pages_loop_writes args self n :
  forall st fs r fs',
    pages_loop args self n st fs = (r, fs') ->
    exists new,
      fs' = fs ++ new /\
      Forall (fun f => has_pages f = true /\
                       exists l r, fst f = output_name l r) new /\
      forall st', r = Ok st' -> pdfs_count st' = pdfs_count st + List.length new.
Proof.
  induction n as [|n IH]; intros st fs r fs' H.
  - injection H as <- <-. exists []. rewrite app_nil_r.
    repeat split; [constructor|]. intros st' [= <-]. cbn; lia.
  - cbn [pages_loop] in H. unfold bind in H.
    destruct (page_step args self st fs) as [[st1|e] fs1] eqn:E;
      destruct (page_step_writes _ _ _ _ _ _ E) as (new1 & -> & F1 & C1).
    + destruct (IH _ _ _ _ H) as (new2 & -> & F2 & C2).
      exists (new1 ++ new2). rewrite app_assoc. repeat split.
      * apply Forall_app. split; [|exact F2].
        eapply Forall_impl; [|exact F1]. intros f [Hp Hf]. eauto.
      * intros st' Hr. rewrite (C2 _ Hr), (C1 _ eq_refl), length_app. lia.
    + injection H as <- <-. exists new1. repeat split; [|discriminate].
      eapply Forall_impl; [|exact F1]. intros f [Hp Hf]. eauto.
Qed.

Lemma split_qr_result args self split_text ifiles fs r fs' :
  split_qr args self split_text ifiles fs = (r, fs') ->
  exists new,
    fs' = fs ++ new /\
    Forall (fun f => has_pages f = true /\
                     exists l r, fst f = output_name l r) new /\
    forall n, r = Ok n -> n = List.length new.
Proof.
  unfold split_qr. unfold bind at 1.
  destruct (pages_loop args self _ _ fs) as [[st|e] fs1] eqn:E;
    destruct (pages_loop_writes _ _ _ _ _ _ _ E) as (new1 & -> & F1 & C1).
  - unfold bind.
    destruct (flush _ _ _ _ (fs ++ new1)) as [[flushed|e] fs2] eqn:E2;
      destruct (flush_writes _ _ _ _ _ _ _ E2) as (new2 & -> & F2 & C2);
      unfold ret; intros [= <- <-]; exists (new1 ++ new2); rewrite app_assoc;
      (split; [reflexivity|]); split.
    + apply Forall_app. split; [exact F1|].
      eapply Forall_impl; [|exact F2]. intros f [Hp Hf]. eauto.
    + intros n [= <-]. rewrite (C2 _ eq_refl), (C1 _ eq_refl), length_app.
      cbn. lia.
    + apply Forall_app. split; [exact F1|].
      eapply Forall_impl; [|exact F2]. intros f [Hp Hf]. eauto.
    + discriminate.
  - intros [= <- <-]. exists new1. repeat split; [exact F1 | discriminate].
Qed.

(** Whatever happens, [split_qr] only appends files that have pages and a
    name built by [output_name]; when it returns, it returns their number. *)
Lemma split_qr_writes args self split_text ifiles fs :
  exists new,
    snd (split_qr args self split_text ifiles fs) = fs ++ new /\
    Forall (fun f => has_pages f = true /\
                     exists l r, fst f = output_name l r) new /\
    forall n, fst (split_qr args self split_text ifiles fs) = Ok n ->
              n = List.length new.
Proof.
  destruct (split_qr args self split_text ifiles fs) as [r fs'] eqn:E.
  exact (split_qr_result _ _ _ _ _ _ _ E).
Qed.

End WriteFacts.

(** ** Runs that stop, and runs of a part of the document *)

Lemma state_after_page args cs :
  forall st,
    current_page (state_after args cs st) = current_page st + List.length cs.
Proof.
  induction cs as [|c cs IH]; intros st; cbn [state_after List.length].
  - lia.
  - rewrite IH. destruct c as [[? ?]|]; cbn; lia.
Qed.

Lemma state_after_nones args n :
  forall st,
    state_after args (repeat None n) st
    = {| pdfs_count := pdfs_count st;
         current_page := current_page st + n;
         pdf_writer := pdf_writer st ++ seq (current_page st) n;
         last_label := last_label st;
         last_race := last_race st;
         written := written st |}.
Proof.
  induction n as [|n IH]; intros st; cbn [repeat state_after seq].
  - rewrite Nat.add_0_r, app_nil_r. now destruct st.
  - rewrite IH. cbn. rewrite <- app_assoc, Nat.add_1_r. cbn.
    f_equal. lia.
Qed.

Lemma closed_files_nones args n :
  forall st, closed_files args (repeat None n) st = [].
Proof. induction n as [|n IH]; intros st; cbn; auto. Qed.

Lemma tidy_after args cs :
  forall st, tidy st -> single_writer args cs -> tidy (state_after args cs st).
Proof.
  induction cs as [|c cs IH]; intros st Ht Hsw; cbn [state_after].
  - exact Ht.
  - apply single_writer_cons in Hsw as [Hc Hsw].
    apply IH; [now apply tidy_step | exact Hsw].
Qed.

Lemma engine_closed args cs :
  forall st,
    engine args cs st
    = closed_files args cs st
      ++ flush_files (output_name (last_label (state_after args cs st))
                                  (last_race (state_after args cs st)))
                     (pdf_writer (state_after args cs st)).
Proof.
  induction cs as [|c cs IH]; intros st; cbn.
  - reflexivity.
  - now rewrite IH, app_assoc.
Qed.

Section StopFacts.

Variable image_open_L : string -> result (list Z).
Variable reader_decode : list Z -> list ZxResult.
Variable temp_dir : string.
Variable open_output : string -> result unit.

Local Abbreviation scan_page := (scan_page image_open_L reader_decode temp_dir).
Local Abbreviation flush := (flush open_output).
Local Abbreviation page_step :=
  (page_step image_open_L reader_decode temp_dir open_output).
Local Abbreviation pages_loop :=
  (pages_loop image_open_L reader_decode temp_dir open_output).
Local Abbreviation split_qr :=
  (split_qr image_open_L reader_decode temp_dir open_output).
Local Abbreviation scans := (scans image_open_L reader_decode temp_dir).
Local Abbreviation can_open := (can_open open_output).

Lemma page_step_none args self st page fs :
  nth_error (input_pdf self) (current_page st) = Some page ->
  scan_page self page = Ok None ->
  page_step args self st fs = (Ok (step_state args st None), fs).
Proof.
  intros Hn Hs. unfold page_step. rewrite Hn.
  unfold bind, lift. rewrite Hs. reflexivity.
Qed.

Lemma page_step_raise args self st page e fs :
  nth_error (input_pdf self) (current_page st) = Some page ->
  scan_page self page = Raise e ->
  page_step args self st fs = (Raise e, fs).
Proof.
  intros Hn Hs. unfold page_step. rewrite Hn.
  unfold bind, lift. rewrite Hs. reflexivity.
Qed.

Lemma flush_raises output w n wr q fs :
  In q w -> In q wr -> open_output output = Ok tt ->
  flush output w n wr fs = (Raise AttributeError, fs).
Proof.
  intros Hw Hwr Ho. unfold flush.
  destruct w as [|p w]; [destruct Hw|]. cbn [List.length Nat.ltb Nat.leb].
  unfold bind, write_document. rewrite Ho.
  assert (E : already_written wr (p :: w) = true).
  { unfold already_written. apply existsb_exists. exists q.
    split; [exact Hw|]. apply existsb_exists. exists q.
    split; [exact Hwr | apply Nat.eqb_refl]. }
  now rewrite E.
Qed.

Lemma page_step_doomed args self st page p q fs :
  nth_error (input_pdf self) (current_page st) = Some page ->
  scan_page self page = Ok (Some p) ->
  keep_page args = true ->
  In q (pdf_writer st) -> In q (written st) ->
  open_output (output_name (last_label st) (last_race st)) = Ok tt ->
  page_step args self st fs = (Raise AttributeError, fs).
Proof.
  intros Hn Hs Hk Hw Hwr Ho. unfold page_step. rewrite Hn.
  unfold bind at 1. unfold lift. rewrite Hs.
  destruct p as [new_sep new_race]. unfold bind at 1. unfold place_page.
  rewrite Hk. unfold bind at 1.
  rewrite (flush_raises _ _ _ _ q); auto.
  apply in_or_app. now left.
Qed.

Lemma pages_loop_add args self n1 n2 :
  forall st fs,
    pages_loop args self (n1 + n2) st fs
    = bind (pages_loop args self n1 st) (pages_loop args self n2) fs.
Proof.
  induction n1 as [|n1 IH]; intros st fs; cbn [Nat.add pages_loop].
  - reflexivity.
  - rewrite bind_assoc. unfold bind in *.
    destruct (page_step args self st fs) as [[st'|e] fs']; [apply IH | reflexivity].
Qed.

Lemma loop_split {B} args self n1 n2 st (final : SplitState -> M B) fs :
  bind (pages_loop args self (n1 + n2) st) final fs
  = bind (pages_loop args self n1 st)
         (fun st1 => bind (pages_loop args self n2 st1) final) fs.
Proof.
  rewrite <- bind_assoc. unfold bind at 1 3. now rewrite pages_loop_add.
Qed.

(** The loop over a part of the document whose pages scan. *)
Lemma pages_loop_run args self mid :
  forall cs, Forall2 (fun p c => scan_page self p = Ok c) mid cs ->
  forall pre post st fs,
    input_pdf self = pre ++ mid ++ post ->
    current_page st = List.length pre ->
    tidy st ->
    single_writer args cs ->
    can_open (closed_files args cs st) ->
    pages_loop args self (List.length mid) st fs
    = (Ok (state_after args cs st), fs ++ closed_files args cs st).
Proof.
  induction 1 as [|page c mid cs Hs _ IH];
    intros pre post st fs Hin Hcur Ht Hsw Ho.
  - cbn. unfold ret. now rewrite app_nil_r.
  - cbn [closed_files] in Ho. apply Forall_app in Ho as [Ho1 Ho2].
    apply single_writer_cons in Hsw as [Hc Hsw].
    cbn [List.length pages_loop state_after closed_files]. unfold bind.
    rewrite (page_step_run _ _ _ _ args self st page c fs); auto.
    + rewrite (IH (pre ++ [page]) post); auto.
      * now rewrite app_assoc.
      * rewrite Hin, <- !app_assoc. reflexivity.
      * rewrite length_app. destruct c as [[? ?]|]; cbn; lia.
      * now apply tidy_step.
    + rewrite Hin, Hcur, nth_error_app2, Nat.sub_diag; auto.
Qed.

(** Once the document in progress holds a page that is already written,
    under [keep_page] the next flush raises. *)
Lemma loop_doomed args self rest :
  forall cs, Forall2 (fun p c => scan_page self p = Ok c) rest cs ->
  forall pre st fs q,
    input_pdf self = pre ++ rest ->
    current_page st = List.length pre ->
    keep_page args = true ->
    In q (pdf_writer st) -> In q (written st) ->
    open_output (output_name (last_label st) (last_race st)) = Ok tt ->
    bind (pages_loop args self (List.length rest) st)
         (fun st' =>
            bind (flush (output_name (last_label st') (last_race st'))
                        (pdf_writer st') (pdfs_count st') (written st'))
                 (fun flushed => ret (fst flushed))) fs
    = (Raise AttributeError, fs).
Proof.
  induction 1 as [|page c rest cs Hs _ IH];
    intros pre st fs q Hin Hcur Hk Hw Hwr Ho.
  - cbn [List.length pages_loop]. unfold bind at 1. unfold ret at 1.
    unfold bind. now rewrite (flush_raises _ _ _ _ q).
  - assert (Hn : nth_error (input_pdf self) (current_page st) = Some page).
    { rewrite Hin, Hcur, nth_error_app2, Nat.sub_diag; auto. }
    cbn [List.length pages_loop]. rewrite bind_assoc. unfold bind at 1.
    destruct c as [p|].
    + now rewrite (page_step_doomed args self st page p q fs).
    + rewrite (page_step_none args self st page fs Hn Hs).
      apply (IH (pre ++ [page]) _ _ q); cbn; auto.
      * rewrite Hin, <- app_assoc. reflexivity.
      * rewrite length_app. cbn. lia.
      * apply in_or_app. now left.
Qed.

(** The loop up to a page that raises. *)
Lemma loop_abort args self bad post e pre :
  forall cs, Forall2 (fun p c => scan_page self p = Ok c) pre cs ->
  forall st fs,
    input_pdf self = pre ++ bad :: post ->
    current_page st = 0 ->
    tidy st ->
    single_writer args cs ->
    can_open (closed_files args cs st) ->
    scan_page self bad = Raise e ->
    pages_loop args self (List.length (pre ++ bad :: post)) st fs
    = (Raise e, fs ++ closed_files args cs st).
Proof.
  intros cs Hs st fs Hin Hcur Ht Hsw Ho Hbad.
  rewrite length_app, pages_loop_add. unfold bind.
  rewrite (pages_loop_run args self pre cs Hs [] (bad :: post) st fs); auto.
  cbn [List.length pages_loop]. unfold bind.
  rewrite (page_step_raise args self _ bad e); auto.
  rewrite state_after_page, Hcur, <- (Forall2_length Hs), Nat.add_0_l, Hin.
  now rewrite nth_error_app2, Nat.sub_diag.
Qed.

End StopFacts.

(** ** The split loop: counts, names and pages *)

Section SplitClaims.

Variable image_open_L : string -> result (list Z).
Variable reader_decode : list Z -> list ZxResult.
Variable temp_dir : string.
Variable open_output : string -> result unit.

Local Abbreviation scan_page := (scan_page image_open_L reader_decode temp_dir).
Local Abbreviation split_qr :=
  (split_qr image_open_L reader_decode temp_dir open_output).
Local Abbreviation scans := (scans image_open_L reader_decode temp_dir).
Local Abbreviation can_open := (can_open open_output).

Lemma scans_no_separator self pages :
  Forall (fun p => scan_page self p = Ok None) pages ->
  scans self pages (repeat None (List.length pages)).
Proof. induction 1; cbn; constructor; assumption. Qed.

Lemma split_qr_no_separator args filepath pages v d b split_text ifiles fs :
  pages <> [] ->
  Forall (fun p => scan_page (PdfQrSplit_init filepath pages v d b) p = Ok None)
         pages ->
  open_output (name_of sentinel) = Ok tt ->
  split_qr args (PdfQrSplit_init filepath pages v d b) split_text ifiles fs
  = (Ok 1, fs ++ [(name_of sentinel, seq 0 (List.length pages))]).
Proof.
  intros Hne Hall Ho.
  assert (E : engine args (repeat None (List.length pages)) initial_state
              = [(name_of sentinel, seq 0 (List.length pages))]).
  { rewrite engine_no_separator. cbn [pdf_writer current_page initial_state app].
    rewrite flush_files_nonempty; [reflexivity|].
    destruct pages; [congruence | discriminate]. }
  rewrite (split_qr_run _ _ _ _ _ _ _ _ _ _ _ _ _ fs
             (scans_no_separator _ _ Hall)
             (single_writer_no_separator _ _)); rewrite E.
  - reflexivity.
  - constructor; [exact Ho | constructor].
Qed.

(** C2 (as amended): [split_qr] returns the number of documents it
    flushed.  A document without pages flushes nothing and returns 0; a
    document with pages that all scan, none of them a separator, flushes
    one file, under the sentinel name, when that file can be opened, and
    returns 1; in every run each file written has pages, and the number
    returned is the number of files written. *)
Theorem split_qr_returns_flushed_count
    args filepath pages v d b split_text ifiles fs :
  (pages = [] ->
   split_qr args (PdfQrSplit_init filepath pages v d b) split_text ifiles fs
   = (Ok 0, fs)) /\
  (pages <> [] ->
   Forall (fun p => scan_page (PdfQrSplit_init filepath pages v d b) p = Ok None)
          pages ->
   open_output (name_of sentinel) = Ok tt ->
   split_qr args (PdfQrSplit_init filepath pages v d b) split_text ifiles fs
   = (Ok 1, fs ++ [(name_of sentinel, seq 0 (List.length pages))])) /\
  (exists new,
      snd (split_qr args (PdfQrSplit_init filepath pages v d b)
                    split_text ifiles fs) = fs ++ new /\
      Forall (fun f => has_pages f = true) new /\
      forall n,
        fst (split_qr args (PdfQrSplit_init filepath pages v d b)
                      split_text ifiles fs) = Ok n ->
        n = List.length new).
Proof.
  split; [|split].
  - intros ->. reflexivity.
  - apply split_qr_no_separator.
  - destruct (split_qr_writes image_open_L reader_decode temp_dir open_output
                args (PdfQrSplit_init filepath pages v d b) split_text ifiles fs)
      as (new & E & F & C).
    exists new. repeat split; [exact E | | exact C].
    eapply Forall_impl; [|exact F]. now intros f [Hp _].
Qed.

(** C7 (as amended): a document with pages that all scan, none of them a
    separator, gives exactly one file, "999 Unknown.pdf", holding all its
    pages, when that file can be opened. *)
Theorem unlabelled_document_is_999_Unknown
    args filepath pages v d b split_text ifiles fs :
  pages <> [] ->
  Forall (fun p => scan_page (PdfQrSplit_init filepath pages v d b) p = Ok None)
         pages ->
  open_output "999 Unknown.pdf" = Ok tt ->
  split_qr args (PdfQrSplit_init filepath pages v d b) split_text ifiles fs
  = (Ok 1, fs ++ [("999 Unknown.pdf"%string, seq 0 (List.length pages))]) /\
  output_name "999 Unknown" "" = "999 Unknown.pdf"%string.
Proof.
  intros Hne Hall Ho. split; [|reflexivity].
  now rewrite split_qr_no_separator.
Qed.

(** C3 (as amended): when no separator page goes to two writers and every
    file can be opened, the files written are the non-empty documents of
    the specification, the k-th document under the name decoded from the
    separator before it and the first under the sentinel; the first file
    written carries the sentinel name when the separator page is kept in
    the closed document or the first page is not a separator. *)
Theorem names_one_separator_behind
    args filepath pages v d b split_text ifiles cs fs :
  scans (PdfQrSplit_init filepath pages v d b) pages cs ->
  single_writer args cs ->
  can_open (spec_files args cs) ->
  split_qr args (PdfQrSplit_init filepath pages v d b) split_text ifiles fs
  = (Ok (List.length (spec_files args cs)), fs ++ spec_files args cs) /\
  (pages <> [] ->
   keep_page args = true \/ (exists cs', cs = None :: cs') ->
   exists doc rest,
     spec_files args cs = ("999 Unknown.pdf"%string, doc) :: rest).
Proof.
  intros Hs Hsw Ho. rewrite <- engine_initial_spec in *. split.
  - now rewrite (split_qr_run _ _ _ _ _ _ _ _ _ _ _ _ _ fs Hs Hsw Ho).
  - intros Hne Hcase.
    destruct cs as [|c cs]; [inversion Hs; congruence|].
    destruct c as [[new_sep new_race]|].
    + destruct Hcase as [Hk|(cs' & [=])].
      cbn [engine step_files]. unfold closing_writer. rewrite Hk.
      eexists _, _. reflexivity.
    + cbn [engine step_files app].
      destruct (engine_head args cs (step_state args initial_state None))
        as (extra & rest & E); [discriminate|].
      rewrite E. eexists _, _. reflexivity.
Qed.

(** C6: with both flags, the pages up to and including the first
    separator page are written under the sentinel name, and the next
    write, which holds that page again, raises [AttributeError]: the page
    is in one file, not in two.  With neither flag, a separator page is in
    no file. *)
Theorem separator_page_with_both_flags_or_none
    args filepath pages v d b split_text ifiles cs fs k p :
  scans (PdfQrSplit_init filepath pages v d b) pages cs ->
  (keep_page args = true -> keep_page_next args = true ->
   forall cs2,
     cs = repeat None k ++ Some p :: cs2 ->
     open_output (name_of sentinel) = Ok tt ->
     open_output (name_of p) = Ok tt ->
     split_qr args (PdfQrSplit_init filepath pages v d b) split_text ifiles fs
     = (Raise AttributeError, fs ++ [(name_of sentinel, seq 0 (S k))])) /\
  (keep_page args = false -> keep_page_next args = false ->
   nth_error cs k = Some (Some p) ->
   can_open (spec_files args cs) ->
   exists new,
     split_qr args (PdfQrSplit_init filepath pages v d b) split_text ifiles fs
     = (Ok (List.length new), fs ++ new) /\
     ~ In k (pages_of new)).
Proof.
  intros Hs. split.
  - intros Hkeep Hnext cs2 -> Ho1 Ho2.
    set (self := PdfQrSplit_init filepath pages v d b) in *.
    assert (Hin : input_pdf self = pages) by reflexivity.
    apply Forall2_app_inv_r in Hs as (pre & rest & Hpre & Hrest & Hpages).
    inversion Hrest as [|sep c post cs2' Hsep Hpost]; subst rest c cs2'.
    assert (Hk : List.length pre = k).
    { rewrite (Forall2_length Hpre). apply repeat_length. }
    assert (Ht : tidy (state_after args (repeat None k) initial_state)).
    { apply tidy_after; auto using tidy_initial, single_writer_no_separator. }
    assert (H1 : pages_loop image_open_L reader_decode temp_dir open_output
                   args self (List.length pre) initial_state fs
                 = (Ok (state_after args (repeat None k) initial_state), fs)).
    { rewrite (pages_loop_run _ _ _ _ args self pre (repeat None k) Hpre
                 [] (sep :: post) initial_state fs);
        auto using tidy_initial, single_writer_no_separator.
      - now rewrite closed_files_nones, app_nil_r.
      - rewrite closed_files_nones. constructor. }
    rewrite state_after_nones in H1, Ht.
    cbn [initial_state pdfs_count current_page pdf_writer last_label last_race
         written app Nat.add] in H1, Ht.
    remember {| pdfs_count := 0; current_page := k; pdf_writer := seq 0 k;
                last_label := "999 Unknown"; last_race := ""; written := [] |}
      as st1 eqn:Est1.
    assert (Hfile : step_files args st1 (Some p)
                    = [(name_of sentinel, seq 0 (S k))]).
    { subst st1. cbn [step_files last_label last_race]. unfold closing_writer.
      rewrite Hkeep. cbn [pdf_writer current_page]. rewrite <- seq_S.
      reflexivity. }
    assert (H2 : page_step image_open_L reader_decode temp_dir open_output
                   args self st1 fs
                 = (Ok (step_state args st1 (Some p)),
                    fs ++ [(name_of sentinel, seq 0 (S k))])).
    { rewrite <- Hfile.
      apply (page_step_run _ _ _ _ args self st1 sep (Some p) fs); auto.
      - subst st1. cbn [current_page].
        rewrite Hin, Hpages, <- Hk, nth_error_app2, Nat.sub_diag; auto.
      - rewrite Hfile. constructor; [exact Ho1 | constructor]. }
    unfold split_qr.
    replace (total_pages self - current_page _)
      with (List.length pre + S (List.length post))
      by (cbn; rewrite Hpages, length_app; cbn; lia).
    change {| pdfs_count := 0; current_page := 0; pdf_writer := [];
              last_label := "999 Unknown"; last_race := ""; written := [] |}
      with initial_state.
    rewrite loop_split, (bind_ok _ _ _ _ _ H1).
    cbn [pages_loop]. rewrite bind_assoc, (bind_ok _ _ _ _ _ H2).
    apply (loop_doomed _ _ _ _ args self post cs2 Hpost (pre ++ [sep]) _ _ k).
    + rewrite Hin, Hpages, <- app_assoc. reflexivity.
    + subst st1. destruct p. cbn. rewrite length_app, Hk. cbn. lia.
    + exact Hkeep.
    + subst st1. destruct p. cbn. rewrite Hnext. now left.
    + subst st1. destruct p. cbn. unfold closing_writer. rewrite Hkeep. cbn.
      apply in_or_app. right. now left.
    + subst st1. destruct p. exact Ho2.
  - intros Hkeep Hnext Hk Ho. rewrite <- engine_initial_spec in Ho.
    assert (Hsw : single_writer args cs).
    { apply single_writer_flags. now rewrite Hkeep. }
    rewrite (split_qr_run _ _ _ _ _ _ _ _ _ _ _ _ _ fs Hs Hsw Ho).
    eexists. split; [reflexivity|].
    intros Hin.
    apply (engine_pages_plain args cs Hkeep Hnext) in Hin.
    destruct Hin as [[]|(m & Hm & Hnone)].
    cbn in Hm. subst m. congruence.
Qed.

End SplitClaims.

Lemma nonempty_pair : [scan_of 0; scan_of 0] <> [].
Proof. discriminate. Qed.

Lemma split_qr_returns_flushed_count_witness :
  split_qr demo_open demo_decode demo_tmp demo_fs demo_args
           (PdfQrSplit_init "in.pdf" [scan_of 0; scan_of 0] false false 128)
           "RPSEQ:" 0 []
  = (Ok 1, [("999 Unknown.pdf"%string, [0; 1])]).
Proof.
  destruct (split_qr_returns_flushed_count
              demo_open demo_decode demo_tmp demo_fs demo_args "in.pdf"
              [scan_of 0; scan_of 0] false false 128 "RPSEQ:" 0 [])
    as (_ & H & _).
  apply H; [exact nonempty_pair | repeat constructor | reflexivity].
Defined.

(** C2, counterexample: a document of one page of text has a page and no
    separator page, yet nothing is flushed and no number is returned. *)
Lemma text_document_flushes_nothing :
  [text_page] <> [] /\
  no_separator demo_open demo_decode demo_tmp (demo_self [text_page]) [text_page] /\
  split_qr demo_open demo_decode demo_tmp demo_fs demo_args
           (demo_self [text_page]) "RPSEQ:" 0 []
  = (Raise (KeyError "/XObject"), []).
Proof.
  split; [discriminate|]. split; [|reflexivity].
  constructor; [|constructor]. intros label race. discriminate.
Qed.

Lemma unlabelled_document_is_999_Unknown_witness :
  split_qr demo_open demo_decode demo_tmp demo_fs demo_args
           (PdfQrSplit_init "in.pdf" [scan_of 0; scan_of 0] false false 128)
           "RPSEQ:" 0 []
  = (Ok 1, [("999 Unknown.pdf"%string, [0; 1])]).
Proof.
  apply (unlabelled_document_is_999_Unknown
           demo_open demo_decode demo_tmp demo_fs demo_args "in.pdf"
           [scan_of 0; scan_of 0] false false 128 "RPSEQ:" 0 []);
    [exact nonempty_pair | repeat constructor | reflexivity].
Defined.

(** C7, counterexample: a scanned page followed by a page of text is a
    document with pages and no separator page; no file is written. *)
Lemma text_page_leaves_no_file :
  [scan_of 0; text_page] <> [] /\
  no_separator demo_open demo_decode demo_tmp
               (demo_self [scan_of 0; text_page]) [scan_of 0; text_page] /\
  split_qr demo_open demo_decode demo_tmp demo_fs demo_args
           (demo_self [scan_of 0; text_page]) "RPSEQ:" 0 []
  = (Raise (KeyError "/XObject"), []).
Proof.
  split; [discriminate|]. split; [|reflexivity].
  repeat constructor; intros label race; discriminate.
Qed.

Lemma names_one_separator_behind_witness :
  split_qr demo_open demo_decode demo_tmp demo_fs demo_args
           (PdfQrSplit_init "in.pdf" [scan_of 0; scan_of 4; scan_of 0; scan_of 5; scan_of 0]
                            false false 128)
           "RPSEQ:" 0 []
  = (Ok 3, [("999 Unknown.pdf"%string, [0]); ("A.pdf"%string, [2]);
            ("B.pdf"%string, [4])]).
Proof.
  apply (names_one_separator_behind
           demo_open demo_decode demo_tmp demo_fs demo_args "in.pdf"
           [scan_of 0; scan_of 4; scan_of 0; scan_of 5; scan_of 0]
           false false 128 "RPSEQ:" 0
           [None; Some ("A", "")%string; None; Some ("B", "")%string; None] []).
  - repeat constructor.
  - apply single_writer_flags. reflexivity.
  - repeat constructor.
Defined.

(** C3, counterexample: when the first page is a separator and is not
    kept, the first file written is named after that separator. *)
Lemma first_file_named_after_leading_separator :
  split_qr demo_open demo_decode demo_tmp demo_fs demo_args
           (PdfQrSplit_init "in.pdf" [scan_of 4; scan_of 0] false false 128)
           "RPSEQ:" 0 []
  = (Ok 1, [("A.pdf"%string, [1])]) /\
  "A.pdf"%string <> output_name "999 Unknown" "".
Proof. split; [reflexivity | discriminate]. Qed.

Lemma separator_page_with_both_flags_or_none_witness :
  split_qr demo_open demo_decode demo_tmp demo_fs (set_keep true true demo_args)
           (PdfQrSplit_init "in.pdf" [scan_of 0; scan_of 4; scan_of 0]
                            false false 128)
           "RPSEQ:" 0 []
  = (Raise AttributeError, [] ++ [("999 Unknown.pdf"%string, [0; 1])]) /\
  (exists new,
      split_qr demo_open demo_decode demo_tmp demo_fs demo_args
               (PdfQrSplit_init "in.pdf" [scan_of 0; scan_of 4; scan_of 0]
                                false false 128)
               "RPSEQ:" 0 []
      = (Ok (List.length new), [] ++ new) /\
      ~ In 1 (pages_of new)).
Proof.
  assert (S : scans demo_open demo_decode demo_tmp
                    (PdfQrSplit_init "in.pdf" [scan_of 0; scan_of 4; scan_of 0]
                                     false false 128)
                    [scan_of 0; scan_of 4; scan_of 0]
                    [None; Some ("A", "")%string; None])
    by (repeat constructor).
  split.
  - destruct (separator_page_with_both_flags_or_none
                demo_open demo_decode demo_tmp demo_fs
                (set_keep true true demo_args)
                "in.pdf" _ false false 128 "RPSEQ:" 0 _ [] 1 ("A", "")%string S)
      as [Hboth _].
    apply (Hboth eq_refl eq_refl [None]); reflexivity.
  - apply (separator_page_with_both_flags_or_none
             demo_open demo_decode demo_tmp demo_fs demo_args
             "in.pdf" _ false false 128 "RPSEQ:" 0 _ [] 1 ("A", "")%string S);
      try reflexivity.
    repeat constructor.
Defined.

(** ** The page classifier *)

Section ClassifierClaims.

Variable image_open_L : string -> result (list Z).
Variable reader_decode : list Z -> list ZxResult.
Variable temp_dir : string.
Variable open_output : string -> result unit.

Local Abbreviation scan_xobject := (scan_xobject image_open_L reader_decode temp_dir).
Local Abbreviation scan_xobjects := (scan_xobjects image_open_L reader_decode temp_dir).
Local Abbreviation scan_page := (scan_page image_open_L reader_decode temp_dir).
Local Abbreviation page_step :=
  (page_step image_open_L reader_decode temp_dir open_output).
Local Abbreviation split_qr :=
  (split_qr image_open_L reader_decode temp_dir open_output).
Local Abbreviation scans := (scans image_open_L reader_decode temp_dir).
Local Abbreviation can_open := (can_open open_output).

Lemma scan_page_entries self page entries :
  xobjects_of page = Some entries ->
  scan_page self page = scan_xobjects self entries None.
Proof.
  unfold xobjects_of, scan_page.
  destruct (Resources page) as [resources|]; [|discriminate].
  now intros ->.
Qed.

Lemma scan_xobjects_app self es es' found :
  scan_xobjects self (es ++ es') found
  = rbind (scan_xobjects self es found) (scan_xobjects self es').
Proof.
  revert found. induction es as [|e es IH]; intros found; cbn.
  - reflexivity.
  - destruct (scan_xobject self found e); cbn; auto.
Qed.

(** An entry that is not an image, or an image with decodable data and an
    unsupported filter, leaves the scan state as it is. *)
Lemma scan_xobject_skips self found obj x :
  has_subtype x = true ->
  (if is_image x then decodable x && unsupported_image x else true) = true ->
  scan_xobject self found (obj, x) = Ok found.
Proof.
  unfold has_subtype, is_image, decodable, unsupported_image, scan_xobject.
  destruct (Subtype x) as [subtype|]; [intros _|discriminate].
  destruct (subtype =? "/Image")%string; [|reflexivity].
  destruct (getData x) as [data|e]; [|discriminate].
  destruct (Filter x) as [flt|]; [|discriminate].
  cbn. intros H. apply negb_true_iff in H. rewrite H. reflexivity.
Qed.

Lemma scan_xobjects_skip self entries :
  forallb has_subtype (map snd entries) = true ->
  forallb (fun x => decodable x && unsupported_image x)
          (filter is_image (map snd entries)) = true ->
  forall found, scan_xobjects self entries found = Ok found.
Proof.
  induction entries as [|[obj x] entries IH]; intros Hsub H found.
  - reflexivity.
  - cbn [scan_xobjects]. cbn [map snd filter forallb] in H, Hsub.
    apply andb_true_iff in Hsub as [Hx Hsub].
    destruct (is_image x) eqn:Ei.
    + cbn [forallb] in H. apply andb_true_iff in H as [H1 H2].
      rewrite scan_xobject_skips by (auto; rewrite Ei; exact H1).
      cbn. now apply IH.
    + rewrite scan_xobject_skips by (auto; now rewrite Ei).
      cbn. now apply IH.
Qed.

(** C9 (as amended): a page whose resources have an [/XObject] dictionary
    in which every entry has a [/Subtype], and whose images, if any, all
    have stream data that [getData()] returns and carry a filter outside
    the supported set, is scanned without an exception and is not a
    separator; the loop adds it to the document in progress and writes
    nothing. *)
Theorem page_without_readable_image_is_not_separator
    self page entries :
  xobjects_of page = Some entries ->
  forallb has_subtype (map snd entries) = true ->
  forallb (fun x => decodable x && unsupported_image x) (embedded_images page)
  = true ->
  scan_page self page = Ok None /\
  forall args st fs,
    nth_error (input_pdf self) (current_page st) = Some page ->
    page_step args self st fs
    = (Ok {| pdfs_count := pdfs_count st;
             current_page := current_page st + 1;
             pdf_writer := pdf_writer st ++ [current_page st];
             last_label := last_label st;
             last_race := last_race st;
             written := written st |}, fs).
Proof.
  intros HX Hsub Himg.
  assert (Hscan : scan_page self page = Ok None).
  { rewrite (scan_page_entries _ _ _ HX).
    unfold embedded_images in Himg. rewrite HX in Himg.
    now apply scan_xobjects_skip. }
  split; [exact Hscan|].
  intros args st fs Hn.
  now rewrite (page_step_none _ _ _ _ args self st page fs Hn Hscan).
Qed.

Lemma tgtn_truthy (dir rest : string) :
  PyStr.truthy (dir ++ "/" ++ rest)%string = true.
Proof. destruct dir; reflexivity. Qed.

(** An image with decodable data and a supported filter is saved and
    decoded; a non-empty label sets the scan state. *)
Lemma scan_xobject_reads self found obj x data flt img :
  Subtype x = Some "/Image"%string ->
  getData x = Ok data ->
  Filter x = Some flt ->
  supported_filter flt = true ->
  image_open_L data = Ok img ->
  scan_xobject self found (obj, x)
  = rbind (extract_barcodes (reader_decode (map (fn self) img)))
          (fun sr => if PyStr.truthy (fst sr) then Ok (Some sr) else Ok found).
Proof.
  intros Hsub Hdata Hflt Hsup Himg. unfold scan_xobject.
  rewrite Hsub, Hdata. cbn [String.eqb Ascii.eqb Bool.eqb rbind].
  rewrite Hflt, Hsup, Himg. cbn [rbind].
  rewrite tgtn_truthy.
  destruct (extract_barcodes _) as [[sep race]|e]; reflexivity.
Qed.


End ClassifierClaims.

Lemma page_without_readable_image_is_not_separator_witness :
  scan_page demo_open demo_decode demo_tmp (demo_self [])
            (page_of [("/Fm0"%string, mkXObject (Some "/Form"%string) None (Ok "q"%string));
                      ("/Im0"%string, image_of "/LZWDecode" "xxxx")])
  = Ok None.
Proof.
  apply (page_without_readable_image_is_not_separator
           demo_open demo_decode demo_tmp demo_fs (demo_self [])
           (page_of [("/Fm0"%string, mkXObject (Some "/Form"%string) None (Ok "q"%string));
                     ("/Im0"%string, image_of "/LZWDecode" "xxxx")])
           _ eq_refl eq_refl eq_refl).
Defined.

(** C9, counterexample: a page of text has no image, and scanning it
    raises [KeyError]; the run stops there and writes nothing. *)
Lemma text_page_raises :
  embedded_images text_page = [] /\
  scan_page demo_open demo_decode demo_tmp (demo_self [text_page]) text_page
  = Raise (KeyError "/XObject") /\
  split_qr demo_open demo_decode demo_tmp demo_fs demo_args
           (demo_self [text_page]) "RPSEQ:" 0 []
  = (Raise (KeyError "/XObject"), []).
Proof. repeat split. Qed.



(** ** The command line: brightness, prefix and separator *)

Section MainClaims.

Variable image_open_L : string -> result (list Z).
Variable reader_decode : list Z -> list ZxResult.
Variable temp_dir : string.
Variable open_output : string -> result unit.

Local Abbreviation split_qr :=
  (split_qr image_open_L reader_decode temp_dir open_output).
Local Abbreviation files_loop :=
  (files_loop image_open_L reader_decode temp_dir open_output).
Local Abbreviation main := (main image_open_L reader_decode temp_dir open_output).

Lemma adjust_args_below b args :
  (b < 0)%Z ->
  adjust_args (set_brightness b args) = adjust_args (set_brightness 0 args).
Proof.
  intros H. unfold adjust_args, set_brightness. cbn.
  apply Z.ltb_lt in H. rewrite H. reflexivity.
Qed.

Lemma adjust_args_above b args :
  (b > 255)%Z ->
  adjust_args (set_brightness b args) = adjust_args (set_brightness 255 args).
Proof.
  intros H. unfold adjust_args, set_brightness. cbn.
  destruct (b <? 0)%Z eqn:E; [apply Z.ltb_lt in E; lia|].
  assert (G : (b >? 255)%Z = true) by (apply Z.gtb_lt; lia).
  rewrite G. reflexivity.
Qed.

Lemma adjust_args_within b args :
  (0 <= b <= 255)%Z ->
  brightness (adjust_args (set_brightness b args)) = b.
Proof.
  intros H. unfold adjust_args, set_brightness. cbn.
  destruct (b <? 0)%Z eqn:E; [apply Z.ltb_lt in E; lia|].
  destruct (b >? 255)%Z eqn:G; [apply Z.gtb_lt in G; lia|].
  reflexivity.
Qed.

(** C8: a brightness below 0 runs as brightness 0 and a brightness above
    255 runs as brightness 255; a brightness within [0, 255] is used as
    given, and the splitter built with it maps a grey value to 255 when it
    is greater than the threshold and to 0 otherwise. *)
Theorem brightness_is_clamped args filepaths fs b :
  ((b < 0)%Z ->
   main (set_brightness b args) filepaths fs
   = main (set_brightness 0 args) filepaths fs) /\
  ((b > 255)%Z ->
   main (set_brightness b args) filepaths fs
   = main (set_brightness 255 args) filepaths fs) /\
  ((0 <= b <= 255)%Z ->
   forall filepath pages x,
     fn (PdfQrSplit_init filepath pages
           (verbose (adjust_args (set_brightness b args)))
           (debug (adjust_args (set_brightness b args)))
           (brightness (adjust_args (set_brightness b args)))) x
     = if (x >? b)%Z then 255%Z else 0%Z).
Proof.
  repeat split.
  - intros H. unfold main. now rewrite (adjust_args_below b args H).
  - intros H. unfold main. now rewrite (adjust_args_above b args H).
  - intros H filepath pages x. unfold fn.
    cbn [self_brightness PdfQrSplit_init].
    now rewrite (adjust_args_within b args H).
Qed.

Lemma files_loop_writes args filepaths :
  forall ifiles ofiles fs,
  exists new,
    snd (files_loop args filepaths ifiles ofiles fs) = fs ++ new /\
    Forall (fun f => exists l r, fst f = output_name l r) new.
Proof.
  induction filepaths as [|[filepath pages] rest IH]; intros ifiles ofiles fs.
  - exists []. cbn. rewrite app_nil_r. split; [reflexivity | constructor].
  - cbn [files_loop]. unfold bind.
    destruct (split_qr_writes image_open_L reader_decode temp_dir open_output args
                (PdfQrSplit_init filepath pages (verbose args) (debug args)
                                 (brightness args))
                (separator args) ifiles fs) as (new1 & E1 & F1 & _).
    destruct (split_qr args _ (separator args) ifiles fs) as [[n|e] fs1].
    + cbn in E1. subst fs1.
      destruct (IH (ifiles + 1) (ofiles + n) (fs ++ new1)) as (new2 & E2 & F2).
      exists (new1 ++ new2). rewrite E2, app_assoc. split; [reflexivity|].
      apply Forall_app. split; [|exact F2].
      eapply Forall_impl; [|exact F1]. now intros f [_ Hf].
    + cbn in E1. subst fs1. exists new1. split; [reflexivity|].
      eapply Forall_impl; [|exact F1]. now intros f [_ Hf].
Qed.

Lemma pages_loop_ignores_prefix p args self n :
  forall st fs,
    pages_loop image_open_L reader_decode temp_dir open_output
               (set_prefix p args) self n st fs
    = pages_loop image_open_L reader_decode temp_dir open_output args self n st fs.
Proof.
  induction n as [|n IH]; intros st fs; [reflexivity|].
  cbn [pages_loop]. unfold bind.
  change (page_step image_open_L reader_decode temp_dir open_output
                    (set_prefix p args) self st fs)
    with (page_step image_open_L reader_decode temp_dir open_output
                    args self st fs).
  destruct (page_step _ _ _ _ args self st fs) as [[st'|e] fs']; auto.
Qed.

Lemma split_qr_ignores_prefix p args self split_text ifiles fs :
  split_qr (set_prefix p args) self split_text ifiles fs
  = split_qr args self split_text ifiles fs.
Proof.
  unfold split_qr, bind. now rewrite pages_loop_ignores_prefix.
Qed.

Lemma files_loop_ignores_prefix p args filepaths :
  forall ifiles ofiles fs,
    files_loop (set_prefix p args) filepaths ifiles ofiles fs
    = files_loop args filepaths ifiles ofiles fs.
Proof.
  induction filepaths as [|[filepath pages] rest IH]; intros ifiles ofiles fs;
    [reflexivity|].
  cbn [files_loop]. unfold bind.
  rewrite split_qr_ignores_prefix.
  cbn [set_prefix verbose debug brightness separator].
  destruct (split_qr args _ _ _ _) as [[n|e] fs']; auto.
Qed.

Lemma main_ignores_prefix p args filepaths fs :
  main (set_prefix p args) filepaths fs = main args filepaths fs.
Proof.
  unfold main. destruct filepaths as [|fp rest]; [reflexivity|].
  change (adjust_args (set_prefix p args)) with (set_prefix p (adjust_args args)).
  apply files_loop_ignores_prefix.
Qed.

(** C10: two runs that differ only in the value of [--prefix] return the
    same numbers and write the same files, and the name of every file
    written is built by [output_name] from a label and a secondary id. *)
Theorem output_names_ignore_prefix args filepaths fs p1 p2 :
  main (set_prefix p1 args) filepaths fs = main (set_prefix p2 args) filepaths fs /\
  exists new,
    snd (main (set_prefix p1 args) filepaths fs) = fs ++ new /\
    Forall (fun f => exists l r, fst f = output_name l r) new.
Proof.
  split; [now rewrite !main_ignores_prefix|].
  unfold main. destruct filepaths as [|fp rest].
  - exists []. cbn. rewrite app_nil_r. split; [reflexivity | constructor].
  - apply files_loop_writes.
Qed.

End MainClaims.

Lemma brightness_is_clamped_witness :
  main demo_open demo_decode demo_tmp demo_fs (set_brightness (-10) demo_args)
       [("in.pdf"%string, [scan_of 0; scan_of 4; scan_of 0])] []
  = main demo_open demo_decode demo_tmp demo_fs (set_brightness 0 demo_args)
         [("in.pdf"%string, [scan_of 0; scan_of 4; scan_of 0])] [] /\
  main demo_open demo_decode demo_tmp demo_fs (set_brightness 300 demo_args)
       [("in.pdf"%string, [scan_of 0; scan_of 4; scan_of 0])] []
  = main demo_open demo_decode demo_tmp demo_fs (set_brightness 255 demo_args)
         [("in.pdf"%string, [scan_of 0; scan_of 4; scan_of 0])] [] /\
  fn (PdfQrSplit_init "in.pdf" [] false false
        (brightness (adjust_args (set_brightness 128 demo_args)))) 129 = 255%Z.
Proof.
  destruct (brightness_is_clamped demo_open demo_decode demo_tmp demo_fs demo_args
              [("in.pdf"%string, [scan_of 0; scan_of 4; scan_of 0])] [] (-10))
    as (Hlow & _ & _).
  destruct (brightness_is_clamped demo_open demo_decode demo_tmp demo_fs demo_args
              [("in.pdf"%string, [scan_of 0; scan_of 4; scan_of 0])] [] 300)
    as (_ & Hhigh & _).
  destruct (brightness_is_clamped demo_open demo_decode demo_tmp demo_fs demo_args
              [] [] 128) as (_ & _ & Hin).
  split; [|split].
  - apply Hlow. reflexivity.
  - apply Hhigh. reflexivity.
  - apply Hin. split; discriminate.
Defined.

(** C1: the separator given on the command line plays no part.  The result
    of [split_qr] is the same for every [split_text]; with "SEP:"
    configured, a page whose barcode reads "SEP:DOC1" is not a separator,
    and a page whose barcode reads "RPSEQ:A" is one. *)
Theorem configured_separator_is_ignored :
  (forall image_open_L reader_decode temp_dir open_output
          args self s1 s2 ifiles fs,
      split_qr image_open_L reader_decode temp_dir open_output
               args self s1 ifiles fs
      = split_qr image_open_L reader_decode temp_dir open_output
                 args self s2 ifiles fs) /\
  demo_decode (map (fn (demo_self [])) (bytes_of "xxxxxx"))
  = [mkZx (Some "SEP:DOC1"%string)] /\
  main demo_open demo_decode demo_tmp demo_fs (set_separator "SEP:" demo_args)
       [("in.pdf"%string, [scan_of 0; scan_of 6; scan_of 0])] []
  = (Ok (1, 1), [("999 Unknown.pdf"%string, [0; 1; 2])]) /\
  demo_decode (map (fn (demo_self [])) (bytes_of "xxxx"))
  = [mkZx (Some "RPSEQ:A"%string)] /\
  main demo_open demo_decode demo_tmp demo_fs (set_separator "SEP:" demo_args)
       [("in.pdf"%string, [scan_of 0; scan_of 4; scan_of 0])] []
  = (Ok (1, 2), [("999 Unknown.pdf"%string, [0]); ("A.pdf"%string, [2])]).
Proof. repeat split. Qed.


(** * Further properties of the code *)

(** ** [extract_barcodes] on a list of results *)

Lemma extract_loop_app rs1 rs2 acc :
  extract_loop (rs1 ++ rs2) acc
  = rbind (extract_loop rs1 acc) (extract_loop rs2).
Proof.
  revert acc. induction rs1 as [|r rs1 IH]; intros acc; cbn.
  - reflexivity.
  - destruct (extract_step acc r); cbn; auto.
Qed.

Lemma extract_step_ok acc r :
  match parsed r with
  | Some b => PyStr.is_ascii b = true
  | None => True
  end ->
  exists acc', extract_step acc r = Ok acc'.
Proof.
  destruct acc as [sep race]. unfold extract_step, decode_ascii.
  destruct (parsed r) as [b|]; intros H; [rewrite H|]; cbn; eauto.
Qed.

Lemma extract_loop_total rs :
  forall acc,
    forallb PyStr.is_ascii (payloads rs) = true ->
    exists acc', extract_loop rs acc = Ok acc'.
Proof.
  induction rs as [|r rs IH]; intros acc H; cbn.
  - eauto.
  - cbn in H. destruct (extract_step_ok acc r) as (acc1 & E).
    + destruct (parsed r); [|exact I].
      cbn in H. now apply andb_true_iff in H.
    + rewrite E. cbn. apply IH.
      destruct (parsed r); [|exact H].
      cbn in H. now apply andb_true_iff in H.
Qed.

Lemma extract_loop_raises rs :
  forall acc,
    forallb PyStr.is_ascii (payloads rs) = false ->
    extract_loop rs acc = Raise UnicodeDecodeError.
Proof.
  induction rs as [|r rs IH]; intros [sep race] H; cbn in *.
  - discriminate.
  - unfold extract_step, decode_ascii.
    destruct (parsed r) as [b|]; cbn in *.
    + destruct (PyStr.is_ascii b); cbn in *; [apply IH; exact H | reflexivity].
    + apply IH; exact H.
Qed.

(** X1: [extract_barcodes] returns a pair when every payload is ASCII and
    raises [UnicodeDecodeError] when some payload is not; it raises nothing
    else. *)
Theorem extract_barcodes_raises_iff_not_ascii (results : list ZxResult) :
  (forallb PyStr.is_ascii (payloads results) = true ->
   exists sep race, extract_barcodes results = Ok (sep, race)) /\
  (forallb PyStr.is_ascii (payloads results) = false ->
   extract_barcodes results = Raise UnicodeDecodeError) /\
  (forall e, extract_barcodes results = Raise e -> e = UnicodeDecodeError).
Proof.
  unfold extract_barcodes. repeat split.
  - intros H. destruct (extract_loop_total results ("", "")%string H)
      as ([sep race] & E). eauto.
  - apply extract_loop_raises.
  - intros e He.
    destruct (forallb PyStr.is_ascii (payloads results)) eqn:F.
    + destruct (extract_loop_total results ("", "")%string F) as (acc & E).
      congruence.
    + rewrite (extract_loop_raises results _ F) in He. congruence.
Qed.

Lemma extract_barcodes_raises_iff_not_ascii_witness :
  (exists sep race,
      extract_barcodes [mkZx None; mkZx (Some "RC: 7"%string)] = Ok (sep, race)) /\
  extract_barcodes [mkZx (Some (String (ascii_of_nat 200) "RPSEQ:A"))]
  = Raise UnicodeDecodeError.
Proof.
  split.
  - apply (extract_barcodes_raises_iff_not_ascii
             [mkZx None; mkZx (Some "RC: 7"%string)]). reflexivity.
  - apply (extract_barcodes_raises_iff_not_ascii
             [mkZx (Some (String (ascii_of_nat 200) "RPSEQ:A"))]). reflexivity.
Defined.

Lemma extract_loop_skips_unparsed rs :
  forall acc, extract_loop (filter has_parsed rs) acc = extract_loop rs acc.
Proof.
  induction rs as [|r rs IH]; intros [sep race]; [reflexivity|].
  cbn [filter]. unfold has_parsed.
  destruct (parsed r) as [b|] eqn:E.
  - cbn [extract_loop]. destruct (extract_step (sep, race) r); cbn; auto.
  - cbn [extract_loop]. unfold extract_step. rewrite E. cbn. apply IH.
Qed.

(** X2: result dicts without the key ['parsed'] play no part: dropping
    them from the reader's results leaves the outcome of
    [extract_barcodes] unchanged. *)
Theorem extract_barcodes_ignores_unparsed (results : list ZxResult) :
  extract_barcodes (filter has_parsed results) = extract_barcodes results.
Proof. apply extract_loop_skips_unparsed. Qed.

Lemma extract_loop_origin rs :
  forall s0 r0 sep race,
    extract_loop rs (s0, r0) = Ok (sep, race) ->
    (sep = s0 \/
     exists b, In b (payloads rs) /\ PyStr.contains "RPSEQ:" b = true) /\
    (race = r0 \/
     exists b, In b (payloads rs) /\ PyStr.contains "RC:" b = true).
Proof.
  induction rs as [|r rs IH]; intros s0 r0 sep race H; cbn in H.
  - injection H as <- <-. auto.
  - unfold extract_step, decode_ascii in H. cbn [payloads].
    destruct (parsed r) as [b|].
    + destruct (PyStr.is_ascii b); cbn in H; [|discriminate].
      apply IH in H as [Hs Hr]. split.
      * destruct Hs as [->|(b' & Hin & Hb)].
        -- destruct (PyStr.contains "RPSEQ:" b) eqn:E; [|now left].
           right. exists b. split; [now left | exact E].
        -- right. exists b'. split; [now right | exact Hb].
      * destruct Hr as [->|(b' & Hin & Hb)].
        -- destruct (PyStr.contains "RC:" b) eqn:E; [|now left].
           right. exists b. split; [now left | exact E].
        -- right. exists b'. split; [now right | exact Hb].
    + cbn in H. now apply IH in H.
Qed.

(** X3: a label comes from a payload that contains "RPSEQ:" and a
    secondary id from a payload that contains "RC:": when
    [extract_barcodes] returns a non-empty label (secondary id), one of the
    payloads contains the marker. *)
Theorem extract_barcodes_needs_marker results sep race :
  extract_barcodes results = Ok (sep, race) ->
  (sep <> ""%string ->
   exists b, In b (payloads results) /\ PyStr.contains "RPSEQ:" b = true) /\
  (race <> ""%string ->
   exists b, In b (payloads results) /\ PyStr.contains "RC:" b = true).
Proof.
  intros H. apply extract_loop_origin in H as [[->|Hs] [->|Hr]];
    split; intros; try congruence; assumption.
Qed.

Lemma extract_barcodes_needs_marker_witness :
  exists b, In b (payloads [mkZx (Some "RPSEQ:A"%string)]) /\
            PyStr.contains "RPSEQ:" b = true.
Proof.
  apply (extract_barcodes_needs_marker
           [mkZx (Some "RPSEQ:A"%string)] "A"%string ""%string eq_refl).
  discriminate.
Defined.

(** X4: within one image the last payload decides: appending an ASCII
    payload to results that gave [(sep, race)] replaces the label when the
    payload contains "RPSEQ:" and the secondary id when it contains "RC:",
    and keeps each of them otherwise. *)
Theorem extract_barcodes_last_payload_wins results sep race b :
  extract_barcodes results = Ok (sep, race) ->
  PyStr.is_ascii b = true ->
  extract_barcodes (results ++ [mkZx (Some b)])
  = Ok (if PyStr.contains "RPSEQ:" b
        then snd (PyStr.partition ":" b) else sep,
        if PyStr.contains "RC:" b
        then snd (PyStr.partition ": " b) else race).
Proof.
  intros H Hb. unfold extract_barcodes in *.
  rewrite extract_loop_app, H. cbn.
  unfold decode_ascii. rewrite Hb. reflexivity.
Qed.

Lemma extract_barcodes_last_payload_wins_witness :
  extract_barcodes ([mkZx (Some "RPSEQ:A"%string); mkZx (Some "RC: 1"%string)]
                      ++ [mkZx (Some "RPSEQ:B"%string)])
  = Ok ("B", "1")%string.
Proof.
  apply (extract_barcodes_last_payload_wins
           [mkZx (Some "RPSEQ:A"); mkZx (Some "RC: 1")]%string
           "A"%string "1"%string "RPSEQ:B"%string eq_refl eq_refl).
Defined.

(** ** The scan of a page *)

Section ScanFacts.

Variable image_open_L : string -> result (list Z).
Variable reader_decode : list Z -> list ZxResult.
Variable temp_dir : string.

Local Abbreviation scan_xobject := (scan_xobject image_open_L reader_decode temp_dir).
Local Abbreviation scan_xobjects := (scan_xobjects image_open_L reader_decode temp_dir).
Local Abbreviation scan_page := (scan_page image_open_L reader_decode temp_dir).

(** X5: scanning an entry of the [/XObject] dictionary raises exactly in
    these cases: the entry has no [/Subtype] ([KeyError]); or it is an
    image and [getData()] raises, or the image has no [/Filter]
    ([KeyError]), or its filter is supported and opening the image or
    decoding its payloads raises.  An entry with another subtype never
    raises, and an image with an unsupported filter raises only what
    [getData()] raises. *)
Theorem scan_xobject_raises_iff self found obj x e :
  scan_xobject self found (obj, x) = Raise e <->
  (Subtype x = None /\ e = KeyError "/Subtype") \/
  (Subtype x = Some "/Image"%string /\
   (getData x = Raise e \/
    exists data,
      getData x = Ok data /\
      ((Filter x = None /\ e = KeyError "/Filter") \/
       exists flt,
         Filter x = Some flt /\ supported_filter flt = true /\
         (image_open_L data = Raise e \/
          exists img,
            image_open_L data = Ok img /\
            extract_barcodes (reader_decode (map (fn self) img)) = Raise e)))).
Proof.
  split.
  - unfold scan_xobject.
    destruct (Subtype x) as [subtype|]; [|intros [= <-]; now left].
    destruct (subtype =? "/Image")%string eqn:Es; [|discriminate].
    apply String.eqb_eq in Es. subst subtype. intros H.
    right. split; [reflexivity|].
    destruct (getData x) as [data|e'] eqn:Ed; cbn [rbind] in H;
      [|left; congruence].
    right. exists data. split; [reflexivity|].
    destruct (Filter x) as [flt|]; [|left; split; congruence].
    right. exists flt. split; [reflexivity|].
    destruct (supported_filter flt); [|discriminate]. split; [reflexivity|].
    destruct (image_open_L data) as [img|e''] eqn:Ei; cbn [rbind] in H.
    + right. exists img. split; [reflexivity|].
      rewrite tgtn_truthy in H.
      destruct (extract_barcodes _) as [[sep race]|e3]; cbn [rbind] in H.
      * destruct (PyStr.truthy sep); discriminate.
      * congruence.
    + left. congruence.
  - intros [[Hs ->]|[Hs [Hd|(data & Hd & [[Hf ->]|(flt & Hf & Hsup & [Hi|(img & Hi & He)])])]]].
    + unfold scan_xobject. now rewrite Hs.
    + unfold scan_xobject. rewrite Hs, Hd. reflexivity.
    + unfold scan_xobject. rewrite Hs, Hd, Hf. reflexivity.
    + unfold scan_xobject. rewrite Hs, Hd.
      cbn [String.eqb Ascii.eqb Bool.eqb rbind].
      rewrite Hf, Hsup, Hi. reflexivity.
    + rewrite (scan_xobject_reads _ _ _ _ _ _ _ _ _ _ Hs Hd Hf Hsup Hi), He.
      reflexivity.
Qed.

Lemma scan_xobject_origin self found obj x p :
  scan_xobject self found (obj, x) = Ok (Some p) ->
  found = Some p \/
  exists data flt img,
    Subtype x = Some "/Image"%string /\ getData x = Ok data /\
    Filter x = Some flt /\
    supported_filter flt = true /\ image_open_L data = Ok img /\
    extract_barcodes (reader_decode (map (fn self) img)) = Ok p /\
    fst p <> ""%string.
Proof.
  unfold scan_xobject.
  destruct (Subtype x) as [subtype|]; [|discriminate].
  destruct (subtype =? "/Image")%string eqn:Es; [|intros [= ->]; now left].
  apply String.eqb_eq in Es. subst subtype.
  destruct (getData x) as [data|e0]; [|discriminate]. cbn [rbind].
  destruct (Filter x) as [flt|]; [|discriminate].
  destruct (supported_filter flt) eqn:Hsup; [|intros [= ->]; now left].
  destruct (image_open_L data) as [img|e'] eqn:Ei; [|discriminate].
  cbn [rbind]. rewrite tgtn_truthy.
  destruct (extract_barcodes _) as [[sep race]|e''] eqn:Ee; [|discriminate].
  cbn [rbind]. destruct sep as [|c sep]; cbn; intros [= <-]; [now left|].
  right. exists data, flt, img. repeat split; auto. discriminate.
Qed.

Lemma scan_xobjects_origin self es :
  forall found p,
    scan_xobjects self es found = Ok (Some p) ->
    found = Some p \/
    exists obj x data flt img,
      In (obj, x) es /\
      Subtype x = Some "/Image"%string /\ getData x = Ok data /\
      Filter x = Some flt /\
      supported_filter flt = true /\ image_open_L data = Ok img /\
      extract_barcodes (reader_decode (map (fn self) img)) = Ok p /\
      fst p <> ""%string.
Proof.
  induction es as [|[obj x] es IH]; intros found p H.
  - left. cbn in H. congruence.
  - cbn [scan_xobjects] in H.
    destruct (scan_xobject self found (obj, x)) as [found'|e] eqn:E;
      [|discriminate].
    cbn in H. apply IH in H as [->|(obj' & x' & data & flt & img & Hin & Hrest)].
    + apply scan_xobject_origin in E as [->|(data & flt & img & Hrest)];
        [now left|].
      right. exists obj, x, data, flt, img. split; [now left | exact Hrest].
    + right. exists obj', x', data, flt, img. split; [now right | exact Hrest].
Qed.

(** X6: a page is a separator only if one of its images, with decodable
    data and a supported filter, opens and decodes to a non-empty label;
    the label and secondary id of the page are those of that image, and one
    of the image's payloads contains "RPSEQ:". *)
Theorem separator_page_has_marker self page label race :
  scan_page self page = Ok (Some (label, race)) ->
  label <> ""%string /\
  exists entries obj x data flt img b,
    xobjects_of page = Some entries /\ In (obj, x) entries /\
    Subtype x = Some "/Image"%string /\ getData x = Ok data /\
    Filter x = Some flt /\
    supported_filter flt = true /\ image_open_L data = Ok img /\
    extract_barcodes (reader_decode (map (fn self) img)) = Ok (label, race) /\
    In b (payloads (reader_decode (map (fn self) img))) /\
    PyStr.contains "RPSEQ:" b = true.
Proof.
  unfold scan_page, xobjects_of.
  destruct (Resources page) as [resources|]; [|discriminate].
  destruct (XObject resources) as [entries|]; [|discriminate].
  intros H.
  apply scan_xobjects_origin in H
    as [[=]|(obj & x & data & flt & img & Hin & Hs & Hd & Hf & Hsup & Hi & He & Hne)].
  split; [exact Hne|].
  destruct (extract_barcodes_needs_marker _ _ _ He) as [Hm _].
  destruct (Hm Hne) as (b & Hb & Hc).
  exists entries, obj, x, data, flt, img, b. repeat split; auto.
Qed.

(** X7: the last image of a page decides: when it opens and decodes to a
    non-empty label, the page is a separator with that image's label and
    secondary id, whatever the earlier images gave; when its label is
    empty, the outcome of the earlier images stands. *)
Theorem last_image_wins self page es obj x data flt img found0 sep race :
  xobjects_of page = Some (es ++ [(obj, x)]) ->
  scan_xobjects self es None = Ok found0 ->
  Subtype x = Some "/Image"%string ->
  getData x = Ok data ->
  Filter x = Some flt ->
  supported_filter flt = true ->
  image_open_L data = Ok img ->
  extract_barcodes (reader_decode (map (fn self) img)) = Ok (sep, race) ->
  scan_page self page
  = Ok (if PyStr.truthy sep then Some (sep, race) else found0).
Proof.
  intros HX Hes Hs Hd Hf Hsup Hi He.
  rewrite (scan_page_entries _ _ _ _ _ _ HX), scan_xobjects_app, Hes.
  cbn [rbind scan_xobjects].
  rewrite (scan_xobject_reads _ _ _ _ _ _ _ _ _ _ Hs Hd Hf Hsup Hi), He.
  cbn. destruct (PyStr.truthy sep); reflexivity.
Qed.

End ScanFacts.

Lemma scan_xobject_raises_iff_witness :
  scan_xobject demo_open demo_decode demo_tmp (demo_self []) None
               ("/Im0"%string,
                mkXObject (Some "/Image"%string)
                          (Some (FilterName "/JBIG2Decode"))
                          (Raise NotImplementedError))
  = Raise NotImplementedError.
Proof.
  apply (scan_xobject_raises_iff demo_open demo_decode demo_tmp (demo_self [])
           None "/Im0"%string
           (mkXObject (Some "/Image"%string) (Some (FilterName "/JBIG2Decode"))
                      (Raise NotImplementedError))
           NotImplementedError).
  right. split; [reflexivity|]. left. reflexivity.
Defined.

Lemma separator_page_has_marker_witness :
  exists entries obj x data flt img b,
    xobjects_of (scan_of 4) = Some entries /\ In (obj, x) entries /\
    Subtype x = Some "/Image"%string /\ getData x = Ok data /\
    Filter x = Some flt /\
    supported_filter flt = true /\ demo_open data = Ok img /\
    extract_barcodes (demo_decode (map (fn (demo_self [])) img))
    = Ok ("A", "")%string /\
    In b (payloads (demo_decode (map (fn (demo_self [])) img))) /\
    PyStr.contains "RPSEQ:" b = true.
Proof.
  apply (separator_page_has_marker demo_open demo_decode demo_tmp
           (demo_self []) (scan_of 4) "A"%string ""%string eq_refl).
Defined.

Lemma last_image_wins_witness :
  scan_page demo_open demo_decode demo_tmp (demo_self [])
            (page_of ([("/Im0"%string, image_of "/DCTDecode" "xxxx")]
                        ++ [("/Im1"%string,
                             mkXObject (Some "/Image"%string)
                                       (Some (FilterArray ["/JPXDecode"%string]))
                                       (Ok "xxxxx"%string))]))
  = Ok (Some ("B", "")%string).
Proof.
  apply (last_image_wins demo_open demo_decode demo_tmp (demo_self [])
           (page_of ([("/Im0"%string, image_of "/DCTDecode" "xxxx")]
                       ++ [("/Im1"%string,
                            mkXObject (Some "/Image"%string)
                                      (Some (FilterArray ["/JPXDecode"%string]))
                                      (Ok "xxxxx"%string))]))
           [("/Im0"%string, image_of "/DCTDecode" "xxxx")]
           "/Im1"%string
           (mkXObject (Some "/Image"%string)
                      (Some (FilterArray ["/JPXDecode"%string]))
                      (Ok "xxxxx"%string))
           "xxxxx"%string
           (FilterArray ["/JPXDecode"%string]) (bytes_of "xxxxx")
           (Some ("A", "")%string) "B"%string ""%string
           eq_refl eq_refl eq_refl eq_refl eq_refl eq_refl eq_refl eq_refl).
Defined.

(** ** Pages, documents and counts *)





Lemma engine_ranges args cs :
  forall st a m,
    pdf_writer st = seq a m -> a + m = current_page st ->
    Forall (fun f => exists a' m',
                snd f = seq a' (S m') /\
                a' + S m' <= current_page st + List.length cs)
           (engine args cs st).
Proof.
  induction cs as [|[[new_sep new_race]|] cs IH]; intros st a m Hw Hc.
  - cbn. unfold flush_files. rewrite Hw.
    destruct m as [|m]; cbn; constructor; [|constructor].
    exists a, m. split; [reflexivity | cbn; lia].
  - cbn [engine step_files]. apply Forall_app. split.
    + unfold closing_writer, flush_files. rewrite Hw.
      destruct (keep_page args).
      * rewrite <- Hc, <- seq_S. cbn. constructor; [|constructor].
        exists a, m. split; [reflexivity | cbn; lia].
      * destruct m as [|m]; cbn; constructor; [|constructor].
        exists a, m. split; [reflexivity | cbn; lia].
    + destruct (keep_page_next args) eqn:Hn.
      * eapply Forall_impl;
          [|apply (IH _ (current_page st) 1); cbn; rewrite ?Hn; auto; lia].
        cbn. intros f (a' & m' & Hf & Hb). exists a', m'. split; [exact Hf | lia].
      * eapply Forall_impl;
          [|apply (IH _ (current_page st + 1) 0); cbn; rewrite ?Hn; auto; lia].
        cbn. intros f (a' & m' & Hf & Hb). exists a', m'. split; [exact Hf | lia].
  - cbn [engine step_files app].
    eapply Forall_impl; [|apply (IH _ a (S m))].
    + cbn. intros f (a' & m' & Hf & Hb). exists a', m'. split; [exact Hf | lia].
    + cbn [step_state pdf_writer]. now rewrite Hw, seq_S, Hc.
    + cbn. lia.
Qed.

Lemma engine_count_upper args cs st :
  List.length (engine args cs st) <= S (List.length (separators cs)).
Proof.
  rewrite engine_spec.
  etransitivity; [apply filter_length_le|].
  unfold OutputFile. rewrite length_combine.
  etransitivity; [apply Nat.le_min_l|].
  cbn. now rewrite length_map.
Qed.

Lemma engine_count_lower args cs :
  keep_page args = true ->
  forall st, List.length (separators cs) <= List.length (engine args cs st).
Proof.
  intros Hk. induction cs as [|[p|] cs IH]; intros st; cbn [separators engine].
  - cbn. lia.
  - cbn [step_files]. unfold closing_writer. rewrite Hk.
    rewrite flush_files_nonempty by (now destruct (pdf_writer st)).
    cbn. apply le_n_S, IH.
  - cbn. apply IH.
Qed.

Lemma separators_length cs : List.length (separators cs) <= List.length cs.
Proof. induction cs as [|[p|] cs IH]; cbn; lia. Qed.

Section RunFacts.

Variable image_open_L : string -> result (list Z).
Variable reader_decode : list Z -> list ZxResult.
Variable temp_dir : string.
Variable open_output : string -> result unit.

Local Abbreviation scan_page := (scan_page image_open_L reader_decode temp_dir).
Local Abbreviation split_qr :=
  (split_qr image_open_L reader_decode temp_dir open_output).
Local Abbreviation scans := (scans image_open_L reader_decode temp_dir).
Local Abbreviation can_open := (can_open open_output).



(** X10: on a document whose pages all scan, when no separator page goes
    to two writers and every file can be opened, every file written is a
    run of consecutive pages of the document: its pages are
    [a, a+1, ..., a+m] for some [a] and [m], all below the number of
    pages. *)
Theorem written_files_are_page_ranges
    args filepath pages v d b split_text ifiles cs fs :
  scans (PdfQrSplit_init filepath pages v d b) pages cs ->
  single_writer args cs ->
  can_open (spec_files args cs) ->
  exists new,
    split_qr args (PdfQrSplit_init filepath pages v d b) split_text ifiles fs
    = (Ok (List.length new), fs ++ new) /\
    Forall (fun f => exists a m,
                snd f = seq a (S m) /\ a + S m <= List.length pages) new.
Proof.
  intros Hs Hsw Ho. rewrite <- engine_initial_spec in Ho.
  rewrite (split_qr_run _ _ _ _ _ _ _ _ _ _ _ _ _ fs Hs Hsw Ho).
  eexists. split; [reflexivity|].
  rewrite (Forall2_length Hs).
  apply (engine_ranges args cs initial_state 0 0); reflexivity.
Qed.

(** X11: on a document whose pages all scan, when no separator page goes
    to two writers and every file can be opened, the number returned is at
    most the number of separator pages plus one, hence at most the number of
    pages plus one; under [keep_page] it is at least the number of
    separator pages. *)
Theorem flushed_count_bounds
    args filepath pages v d b split_text ifiles cs fs :
  scans (PdfQrSplit_init filepath pages v d b) pages cs ->
  single_writer args cs ->
  can_open (spec_files args cs) ->
  exists n new,
    split_qr args (PdfQrSplit_init filepath pages v d b) split_text ifiles fs
    = (Ok n, fs ++ new) /\
    n <= S (List.length (separators cs)) /\
    n <= S (List.length pages) /\
    (keep_page args = true -> List.length (separators cs) <= n).
Proof.
  intros Hs Hsw Ho. rewrite <- engine_initial_spec in Ho.
  rewrite (split_qr_run _ _ _ _ _ _ _ _ _ _ _ _ _ fs Hs Hsw Ho).
  eexists _, _. split; [reflexivity|]. repeat split.
  - apply engine_count_upper.
  - etransitivity; [apply engine_count_upper|].
    rewrite (Forall2_length Hs). apply le_n_S, separators_length.
  - intros Hk. now apply engine_count_lower.
Qed.

(** X12: an exception of a page stops the run at that page.  When the
    pages before it scan, no separator page among them goes to two writers
    and the files closed before it can be opened, those files stay
    written, the document in progress is not written, and the pages after
    it are not processed: [split_qr] raises the exception of the page.  A
    full run of the pages before it would have written the same files and
    then the document in progress. *)
Theorem exception_drops_document_in_progress
    args filepath pre bad post v d b split_text ifiles cs e fs :
  scans (PdfQrSplit_init filepath (pre ++ bad :: post) v d b) pre cs ->
  single_writer args cs ->
  can_open (closed_files args cs initial_state) ->
  scan_page (PdfQrSplit_init filepath (pre ++ bad :: post) v d b) bad = Raise e ->
  split_qr args (PdfQrSplit_init filepath (pre ++ bad :: post) v d b)
           split_text ifiles fs
  = (Raise e, fs ++ closed_files args cs initial_state) /\
  engine args cs initial_state
  = closed_files args cs initial_state
    ++ flush_files (output_name (last_label (state_after args cs initial_state))
                                (last_race (state_after args cs initial_state)))
                   (pdf_writer (state_after args cs initial_state)).
Proof.
  intros Hs Hsw Ho Hbad. split; [|apply engine_closed].
  unfold split_qr. cbn [total_pages PdfQrSplit_init current_page].
  rewrite Nat.sub_0_r.
  apply bind_raise.
  apply (loop_abort _ _ _ _ args _ bad post e pre cs Hs);
    auto using tidy_initial.
Qed.

End RunFacts.

Lemma demo_scans :
  scans demo_open demo_decode demo_tmp
        (PdfQrSplit_init "in.pdf" [scan_of 0; scan_of 4; scan_of 0] false false 128)
        [scan_of 0; scan_of 4; scan_of 0] [None; Some ("A", "")%string; None].
Proof. repeat constructor. Qed.

Lemma demo_single_writer k kn :
  k && kn = false ->
  single_writer (set_keep k kn demo_args) [None; Some ("A", "")%string; None].
Proof. intros H. now apply single_writer_flags. Qed.



Lemma written_files_are_page_ranges_witness :
  exists new,
    split_qr demo_open demo_decode demo_tmp demo_fs (set_keep true false demo_args)
             (PdfQrSplit_init "in.pdf" [scan_of 0; scan_of 4; scan_of 0]
                              false false 128) "RPSEQ:" 0 []
    = (Ok (List.length new), [] ++ new) /\
    Forall (fun f => exists a m, snd f = seq a (S m) /\ a + S m <= 3) new.
Proof.
  apply (written_files_are_page_ranges demo_open demo_decode demo_tmp demo_fs
           (set_keep true false demo_args) "in.pdf" _ false false 128
           "RPSEQ:" 0 _ [] demo_scans (demo_single_writer true false eq_refl)).
  repeat constructor.
Defined.

Lemma flushed_count_bounds_witness :
  exists n new,
    split_qr demo_open demo_decode demo_tmp demo_fs (set_keep true false demo_args)
             (PdfQrSplit_init "in.pdf" [scan_of 0; scan_of 4; scan_of 0]
                              false false 128) "RPSEQ:" 0 []
    = (Ok n, [] ++ new) /\
    n <= 2 /\ n <= 4 /\ (true = true -> 1 <= n).
Proof.
  apply (flushed_count_bounds demo_open demo_decode demo_tmp demo_fs
           (set_keep true false demo_args) "in.pdf" _ false false 128
           "RPSEQ:" 0 _ [] demo_scans (demo_single_writer true false eq_refl)).
  repeat constructor.
Defined.

Lemma exception_drops_document_in_progress_witness :
  split_qr demo_open demo_decode demo_tmp demo_fs demo_args
           (PdfQrSplit_init "in.pdf"
              ([scan_of 0; scan_of 4; scan_of 0] ++ text_page :: [scan_of 0])
              false false 128) "RPSEQ:" 0 []
  = (Raise (KeyError "/XObject"), [("999 Unknown.pdf"%string, [0])]).
Proof.
  apply (exception_drops_document_in_progress demo_open demo_decode demo_tmp
           demo_fs demo_args "in.pdf" [scan_of 0; scan_of 4; scan_of 0] text_page
           [scan_of 0] false false 128 "RPSEQ:" 0
           [None; Some ("A", "")%string; None] (KeyError "/XObject") []).
  - repeat constructor.
  - apply single_writer_flags. reflexivity.
  - repeat constructor.
  - reflexivity.
Defined.

(** ** The batch of input files *)

Section BatchFacts.

Variable image_open_L : string -> result (list Z).
Variable reader_decode : list Z -> list ZxResult.
Variable temp_dir : string.
Variable open_output : string -> result unit.

Local Abbreviation scan_page := (scan_page image_open_L reader_decode temp_dir).
Local Abbreviation split_qr :=
  (split_qr image_open_L reader_decode temp_dir open_output).
Local Abbreviation scans := (scans image_open_L reader_decode temp_dir).
Local Abbreviation can_open := (can_open open_output).
Local Abbreviation files_loop :=
  (files_loop image_open_L reader_decode temp_dir open_output).
Local Abbreviation main := (main image_open_L reader_decode temp_dir open_output).

(** The splitter that the loop over the files builds for a file. *)
Local Abbreviation splitter args fp :=
  (PdfQrSplit_init (fst fp) (snd fp) (verbose args) (debug args) (brightness args)).

(** A file whose pages scan with the outcomes [cs], in which no separator
    page goes to two writers and whose documents can be opened. *)
Local Abbreviation splits_well args fp cs :=
  (scans (splitter args fp) (snd fp) cs /\
   single_writer args cs /\
   can_open (spec_files args cs)).

Lemma main_nonempty args fp rest fs :
  main args (fp :: rest) fs = files_loop (adjust_args args) (fp :: rest) 0 0 fs.
Proof. reflexivity. Qed.

Lemma files_loop_run args fps css :
  Forall2 (fun fp cs => splits_well args fp cs) fps css ->
  forall i0 o0 fs,
    files_loop args fps i0 o0 fs
    = (Ok (i0 + List.length fps,
           o0 + List.length (concat (map (spec_files args) css))),
       fs ++ concat (map (spec_files args) css)).
Proof.
  induction 1 as [|[filepath pages] cs fps css (Hs & Hsw & Ho) _ IH];
    intros i0 o0 fs.
  - cbn. now rewrite !Nat.add_0_r, app_nil_r.
  - cbn [files_loop]. unfold bind. cbn [fst snd] in Hs.
    rewrite <- engine_initial_spec in Ho.
    rewrite (split_qr_run _ _ _ _ _ _ _ _ _ _ _ _ _ fs Hs Hsw Ho),
      engine_initial_spec.
    rewrite IH. cbn [map concat List.length].
    rewrite length_app, app_assoc. f_equal. f_equal. f_equal; lia.
Qed.

(** X13: the batch is the splits of its files one after the other.  When
    every page of every matched file scans, no separator page goes to two
    writers and every document can be opened, [main] reports the number of
    files and the total number of documents, and writes, file after file,
    the documents of each file; each file starts again from the sentinel
    name. *)
Theorem main_concatenates_the_splits args fps css fs :
  fps <> [] ->
  Forall2 (fun fp cs => splits_well (adjust_args args) fp cs) fps css ->
  main args fps fs
  = (Ok (List.length fps,
         List.length (concat (map (spec_files (adjust_args args)) css))),
     fs ++ concat (map (spec_files (adjust_args args)) css)).
Proof.
  intros Hne Hs. destruct fps as [|fp rest]; [congruence|].
  rewrite main_nonempty. now rewrite (files_loop_run _ _ _ Hs).
Qed.

Lemma files_loop_no_separator args fps :
  open_output "999 Unknown.pdf" = Ok tt ->
  Forall (fun fp =>
            snd fp <> [] /\
            Forall (fun p => scan_page (splitter args fp) p = Ok None) (snd fp))
         fps ->
  forall i0 o0 fs,
    files_loop args fps i0 o0 fs
    = (Ok (i0 + List.length fps, o0 + List.length fps),
       fs ++ map (fun fp => ("999 Unknown.pdf"%string,
                             seq 0 (List.length (snd fp)))) fps).
Proof.
  intros Hopen.
  induction 1 as [|[filepath pages] rest [Hne Hp] _ IH]; intros i0 o0 fs.
  - cbn. now rewrite !Nat.add_0_r, app_nil_r.
  - cbn [fst snd] in *. cbn [files_loop]. unfold bind.
    rewrite (split_qr_no_separator image_open_L reader_decode temp_dir
               open_output args filepath pages _ _ _ _ i0 fs Hne Hp Hopen).
    rewrite IH. cbn [map List.length fst snd].
    rewrite <- app_assoc. f_equal. f_equal. f_equal; lia.
Qed.

(** X14: every input file without a separator page is written under the
    same name: when "999 Unknown.pdf" can be opened, for matched files
    that have pages, all of which scan and none of which is a separator,
    [main] writes one file "999 Unknown.pdf" per input file, each holding
    all pages of its input, and reports as many output files as input
    files. *)
Theorem unlabelled_files_share_one_name args fps fs :
  fps <> [] ->
  open_output "999 Unknown.pdf" = Ok tt ->
  Forall (fun fp =>
            snd fp <> [] /\
            Forall (fun p => scan_page (splitter (adjust_args args) fp) p = Ok None)
                   (snd fp)) fps ->
  main args fps fs
  = (Ok (List.length fps, List.length fps),
     fs ++ map (fun fp => ("999 Unknown.pdf"%string, seq 0 (List.length (snd fp))))
              fps).
Proof.
  intros Hne Hopen Hall. destruct fps as [|fp rest]; [congruence|].
  rewrite main_nonempty. now rewrite (files_loop_no_separator _ _ Hopen Hall).
Qed.

Lemma files_loop_counts args fps :
  forall i0 o0 fs,
  exists new,
    snd (files_loop args fps i0 o0 fs) = fs ++ new /\
    Forall (fun f => has_pages f = true) new /\
    forall i o,
      fst (files_loop args fps i0 o0 fs) = Ok (i, o) ->
      i = i0 + List.length fps /\ o = o0 + List.length new.
Proof.
  induction fps as [|[filepath pages] rest IH]; intros i0 o0 fs.
  - exists []. cbn. rewrite app_nil_r.
    split; [reflexivity|]. split; [constructor|].
    intros i o [= <- <-]. lia.
  - cbn [files_loop]. unfold bind.
    destruct (split_qr_writes image_open_L reader_decode temp_dir open_output
                args
                (PdfQrSplit_init filepath pages (verbose args) (debug args)
                                 (brightness args))
                (separator args) i0 fs) as (new1 & E1 & F1 & C1).
    destruct (split_qr args _ (separator args) i0 fs) as [[n|e] fs1].
    + cbn in E1. subst fs1. specialize (C1 n eq_refl). subst n.
      destruct (IH (i0 + 1) (o0 + List.length new1) (fs ++ new1))
        as (new2 & E2 & F2 & C2).
      exists (new1 ++ new2). rewrite E2, app_assoc.
      split; [reflexivity|]. split.
      * apply Forall_app. split; [|exact F2].
        eapply Forall_impl; [|exact F1]. now intros f [Hp _].
      * intros i o H. apply C2 in H. rewrite length_app. cbn. lia.
    + cbn in E1. subst fs1. exists new1.
      split; [reflexivity|]. split; [|discriminate].
      eapply Forall_impl; [|exact F1]. now intros f [Hp _].
Qed.

(** X15: the two numbers of the final message.  Without a matched file
    [main] exits with the error message and writes nothing.  In every run
    the log only grows, by files that have pages; when [main] returns, the
    first number is the number of matched files and the second the number
    of files written. *)
Theorem main_reports_what_it_wrote args fps fs :
  (fps = [] ->
   main args fps fs
   = (Raise (SystemExit
               "Error: no file found, check the documentation for more info."),
      fs)) /\
  exists new,
    snd (main args fps fs) = fs ++ new /\
    Forall (fun f => has_pages f = true) new /\
    forall i o,
      fst (main args fps fs) = Ok (i, o) ->
      i = List.length fps /\ o = List.length new.
Proof.
  split; [intros ->; reflexivity|].
  destruct fps as [|fp rest].
  - exists []. cbn. rewrite app_nil_r.
    split; [reflexivity|]. split; [constructor | discriminate].
  - rewrite main_nonempty.
    destruct (files_loop_counts (adjust_args args) (fp :: rest) 0 0 fs)
      as (new & E & F & C).
    exists new. split; [exact E|]. split; [exact F|].
    intros i o H. apply C in H. lia.
Qed.



End BatchFacts.

Lemma main_concatenates_the_splits_witness :
  main demo_open demo_decode demo_tmp demo_fs demo_args
       [("a.pdf"%string, [scan_of 0; scan_of 4; scan_of 0]);
        ("b.pdf"%string, [scan_of 0; scan_of 5; scan_of 0])] []
  = (Ok (2, 4),
     [("999 Unknown.pdf"%string, [0]); ("A.pdf"%string, [2]);
      ("999 Unknown.pdf"%string, [0]); ("B.pdf"%string, [2])]).
Proof.
  apply (main_concatenates_the_splits demo_open demo_decode demo_tmp demo_fs
           demo_args
           [("a.pdf"%string, [scan_of 0; scan_of 4; scan_of 0]);
            ("b.pdf"%string, [scan_of 0; scan_of 5; scan_of 0])]
           [[None; Some ("A", "")%string; None];
            [None; Some ("B", "")%string; None]] []).
  - discriminate.
  - repeat constructor; apply single_writer_flags; reflexivity.
Defined.

Lemma unlabelled_files_share_one_name_witness :
  main demo_open demo_decode demo_tmp demo_fs demo_args
       [("a.pdf"%string, [scan_of 0; scan_of 0]); ("b.pdf"%string, [scan_of 0])] []
  = (Ok (2, 2),
     [("999 Unknown.pdf"%string, [0; 1]); ("999 Unknown.pdf"%string, [0])]).
Proof.
  apply (unlabelled_files_share_one_name demo_open demo_decode demo_tmp demo_fs
           demo_args
           [("a.pdf"%string, [scan_of 0; scan_of 0]);
            ("b.pdf"%string, [scan_of 0])] []).
  - discriminate.
  - reflexivity.
  - repeat constructor; discriminate.
Defined.

Lemma main_reports_what_it_wrote_witness :
  main demo_open demo_decode demo_tmp demo_fs demo_args [] []
  = (Raise (SystemExit
              "Error: no file found, check the documentation for more info."),
     []).
Proof.
  apply (main_reports_what_it_wrote demo_open demo_decode demo_tmp demo_fs
           demo_args [] []).
  reflexivity.
Defined.


(** ** The adjusted arguments and the threshold *)

(** X17: after the adjustment of the arguments the brightness is within
    [0, 255], [debug] has switched [verbose] on, the other options are as
    given, and adjusting again changes nothing. *)
Theorem adjust_args_normalises (args : Args) :
  (0 <= brightness (adjust_args args) <= 255)%Z /\
  (debug args = true -> verbose (adjust_args args) = true) /\
  (debug args = false -> verbose (adjust_args args) = verbose args) /\
  (keep_page (adjust_args args), keep_page_next (adjust_args args),
   separator (adjust_args args), prefix (adjust_args args),
   filename (adjust_args args), debug (adjust_args args))
  = (keep_page args, keep_page_next args, separator args, prefix args,
     filename args, debug args) /\
  adjust_args (adjust_args args) = adjust_args args.
Proof.
  destruct args as [f p s k kn b v d]. unfold adjust_args.
  cbn [filename prefix separator keep_page keep_page_next brightness verbose debug].
  assert (Hv : (if d then true else if d then true else v)
               = (if d then true else v)) by (now destruct d).
  destruct (b <? 0)%Z eqn:L.
  - cbn. rewrite Hv. repeat split; try lia; now intros ->.
  - destruct (b >? 255)%Z eqn:G.
    + cbn. rewrite Hv. repeat split; try lia; now intros ->.
    + rewrite L, G, Hv.
      assert (0 <= b)%Z by (now apply Z.ltb_ge).
      assert (b <= 255)%Z by (destruct (Z.gtb_spec b 255); [discriminate | lia]).
      repeat split; try lia; now intros ->.
Qed.

Lemma adjust_args_normalises_witness :
  verbose (adjust_args (mkArgs "in.pdf" "split" "RPSEQ:" false false 999 false true))
  = true.
Proof.
  apply (adjust_args_normalises
           (mkArgs "in.pdf" "split" "RPSEQ:" false false 999 false true)).
  reflexivity.
Defined.

(** X18: the two ends of the range.  For an 8-bit image, a brightness of
    255 or more saves an image that is all 0, whatever the page shows; a
    brightness of 0 or less saves 0 for the grey value 0 and 255 for every
    other grey value. *)
Theorem extreme_thresholds args filepath pages img :
  Forall is_grey img ->
  ((255 <= brightness args)%Z ->
   map (fn (PdfQrSplit_init filepath pages
              (verbose (adjust_args args)) (debug (adjust_args args))
              (brightness (adjust_args args)))) img
   = repeat 0%Z (List.length img)) /\
  ((brightness args <= 0)%Z ->
   map (fn (PdfQrSplit_init filepath pages
              (verbose (adjust_args args)) (debug (adjust_args args))
              (brightness (adjust_args args)))) img
   = map (fun x => if (x =? 0)%Z then 0%Z else 255%Z) img).
Proof.
  intros Hg. split; intros Hb.
  - assert (E : brightness (adjust_args args) = 255%Z).
    { unfold adjust_args. cbn.
      destruct (brightness args <? 0)%Z eqn:L; [apply Z.ltb_lt in L; lia|].
      destruct (Z.gtb_spec (brightness args) 255); [reflexivity | lia]. }
    induction Hg as [|x img [Hx0 Hx1] _ IH]; cbn [map List.length repeat];
      [reflexivity|].
    rewrite IH. f_equal. unfold fn. cbn [self_brightness PdfQrSplit_init].
    rewrite E. destruct (Z.gtb_spec x 255); [lia | reflexivity].
  - assert (E : brightness (adjust_args args) = 0%Z).
    { unfold adjust_args. cbn.
      destruct (brightness args <? 0)%Z eqn:L; [reflexivity|].
      apply Z.ltb_ge in L.
      destruct (Z.gtb_spec (brightness args) 255); lia. }
    induction Hg as [|x img [Hx0 Hx1] _ IH]; cbn [map]; [reflexivity|].
    rewrite IH. f_equal. unfold fn. cbn [self_brightness PdfQrSplit_init].
    rewrite E. destruct (Z.gtb_spec x 0), (Z.eqb_spec x 0); lia || reflexivity.
Qed.

Lemma extreme_thresholds_witness :
  map (fn (PdfQrSplit_init "in.pdf" [] false false
             (brightness (adjust_args (set_brightness 300 demo_args)))))
      [0; 17; 255]%Z
  = [0; 0; 0]%Z.
Proof.
  apply (extreme_thresholds (set_brightness 300 demo_args) "in.pdf" []
           [0; 17; 255]%Z).
  - repeat constructor; discriminate.
  - discriminate.
Defined.
